(** * open-spend: the query and aggregation layer of [src/storage.js]

    A shallow embedding of the data-access functions of [storage.js]
    ([getTransactions], [getAccounts], [getSpendingSummary],
    [getTotalBalance], [getIncomeSummary], [getCategorySpending]) together
    with the canned datasets, followed by the properties the specification
    states about them. The writers of the same file ([saveUserConnection],
    [cacheTransactions], the chat history), the mapping of the provider's
    records in [plaid.js] and the filters the tools of [tools.js] pass are
    embedded after them, with further properties at the end.

    Conventions of the embedding:
    - a JavaScript string is a [string] of 8-bit characters; [toLowerCase]
      folds the letters [A-Z]; [<=] on strings is the code-unit order;
    - a JavaScript number holding an amount is an exact rational ([Q]), so
      sums are exact and compared with [==]; rounding of binary floating
      point is outside the model;
    - an optional argument is an [option]; JavaScript truthiness of the
      value is written out ([truthy], [isTruthyNumber]);
    - an object used as a dictionary is a [gmap] of its own properties,
      and a property read falls back to [Object.prototype] ([getProp]). *)

From Stdlib Require Import Ascii String QArith Qabs Lqa Sorting.Sorted Sorting.Permutation.
From stdpp Require Import gmap strings list fin_maps.

Local Open Scope string_scope.

(** ** Strings *)

Definition lowerChar (c : ascii) : ascii :=
  let n := nat_of_ascii c in
  if (65 <=? n)%nat && (n <=? 90)%nat then ascii_of_nat (n + 32) else c.

Fixpoint toLowerCase (s : string) : string :=
  match s with
  | EmptyString => EmptyString
  | String c s' => String (lowerChar c) (toLowerCase s')
  end.

(** [s.includes(search)] *)
Fixpoint includes (s search : string) : bool :=
  String.prefix search s ||
  match s with
  | EmptyString => false
  | String _ s' => includes s' search
  end.

(** A string is truthy unless it is empty. *)
Definition truthy (s : string) : bool := negb (String.eqb s "").

(** [if (o) then k(o) else d] for an optional string [o]
    ([undefined], [null] and the empty string are falsy). *)
Definition ifTruthy {A : Type} (o : option string) (k : string -> A) (d : A) : A :=
  match o with
  | Some s => if truthy s then k s else d
  | None => d
  end.

(** ** Numbers *)

Definition Qltb (x y : Q) : bool := negb (Qle_bool y x).

(** A number is truthy unless it is zero (amounts and limits are never NaN). *)
Definition isTruthyNumber (z : Z) : bool := negb (z =? 0)%Z.

(** ** Arrays *)

(** [l.slice(0, e)] for an integer [e]: a negative [e] counts from the end. *)
Definition slice0 {A : Type} (l : list A) (e : Z) : list A :=
  if (e <? 0)%Z then firstn (Z.to_nat (Z.of_nat (length l) + e)) l
  else firstn (Z.to_nat e) l.

(** [Array.prototype.sort] is stable; [cmp x y = Gt] plays the role of a
    positive comparator result ([y] goes first). *)
Section Sort.
Context {A : Type} (cmp : A -> A -> comparison).

Fixpoint insertSorted (x : A) (l : list A) : list A :=
  match l with
  | [] => [x]
  | y :: l' =>
      match cmp x y with
      | Gt => y :: insertSorted x l'
      | _ => x :: l
      end
  end.

Definition sort (l : list A) : list A := foldr insertSorted [] l.
End Sort.

(** [String.prototype.localeCompare]: the collation of the runtime, of which
    only the laws of a total preorder are used ([Gt]: a positive result). *)
Class Collator := {
  localeCompare : string -> string -> comparison;
  localeCompare_flip : forall a b, localeCompare b a = CompOpp (localeCompare a b);
  localeCompare_trans : forall a b c,
    localeCompare a b <> Gt -> localeCompare b c <> Gt -> localeCompare a c <> Gt
}.

(** ** Data model *)

Module Txn.
Record t := mk {
  id : string;
  date : string;
  amount : Q;
  merchant : string;
  category : string;
  account : string
}.
End Txn.

Module Acct.
(** [balance] is [None] when the provider reports no current balance. *)
Record t := mk {
  id : string;
  name : string;
  type : string;
  balance : option Q;
  institution : string
}.
End Acct.

Definition MOCK_TRANSACTIONS : list Txn.t := [
  Txn.mk "txn_001" "2026-01-02" (-45.67) "Whole Foods Market" "groceries" "Chase Checking";
  Txn.mk "txn_002" "2026-01-03" (-12.50) "Starbucks" "food" "Chase Checking";
  Txn.mk "txn_003" "2026-01-05" 3500.00 "Employer Direct Deposit" "income" "Chase Checking";
  Txn.mk "txn_004" "2026-01-06" (-89.99) "Amazon" "shopping" "Amex Platinum";
  Txn.mk "txn_005" "2026-01-07" (-150.00) "PG&E" "utilities" "Chase Checking";
  Txn.mk "txn_006" "2026-01-08" (-35.00) "Uber" "transport" "Amex Platinum";
  Txn.mk "txn_007" "2026-01-10" (-78.50) "Trader Joes" "groceries" "Chase Checking";
  Txn.mk "txn_008" "2026-01-12" (-25.00) "Netflix" "entertainment" "Amex Platinum";
  Txn.mk "txn_009" "2026-01-12" (-15.99) "Spotify" "entertainment" "Amex Platinum";
  Txn.mk "txn_010" "2026-01-15" (-200.00) "CVS Pharmacy" "health" "Chase Checking";
  Txn.mk "txn_011" "2026-01-18" (-65.00) "Chipotle" "food" "Amex Platinum";
  Txn.mk "txn_012" "2026-01-19" 3500.00 "Employer Direct Deposit" "income" "Chase Checking";
  Txn.mk "txn_013" "2026-01-20" (-1200.00) "Rent Payment" "housing" "Chase Checking";
  Txn.mk "txn_014" "2026-01-22" (-55.00) "Shell Gas Station" "transport" "Chase Checking";
  Txn.mk "txn_015" "2026-01-24" (-125.00) "Target" "shopping" "Amex Platinum";
  Txn.mk "txn_016" "2026-01-25" (-42.00) "Grubhub" "food" "Amex Platinum";
  Txn.mk "txn_017" "2026-01-27" (-95.50) "Costco" "groceries" "Chase Checking";
  Txn.mk "txn_018" "2026-01-28" 500.00 "Venmo Transfer" "transfer" "Chase Checking";
  Txn.mk "txn_019" "2026-01-29" (-180.00) "United Airlines" "travel" "Amex Platinum";
  Txn.mk "txn_020" "2026-01-30" (-28.00) "Lyft" "transport" "Amex Platinum"
].

Definition MOCK_ACCOUNTS : list Acct.t := [
  Acct.mk "acc_001" "Chase Checking" "checking" (Some 4250.33%Q) "Chase";
  Acct.mk "acc_002" "Amex Platinum" "credit" (Some (-892.48)%Q) "American Express"
].

Definition CATEGORIES : list string := [
  "groceries"; "food"; "shopping"; "transport"; "utilities";
  "entertainment"; "health"; "housing"; "travel"; "income"; "transfer"; "other"
].

(** ** Objects used as dictionaries

    [summary = {}] has [Object.prototype] as its prototype, so the read
    [summary[k]] yields the own property when there is one, and otherwise
    the member of [Object.prototype] named [k] when there is one. *)
Definition objectPrototypeKeys : list string := [
  "constructor"; "__defineGetter__"; "__defineSetter__"; "hasOwnProperty";
  "__lookupGetter__"; "__lookupSetter__"; "isPrototypeOf";
  "propertyIsEnumerable"; "toString"; "valueOf"; "__proto__"; "toLocaleString"
].

Definition isInherited (k : string) : bool :=
  existsb (String.eqb k) objectPrototypeKeys.

Inductive Slot (A : Type) : Type :=
| Own (v : A)      (* an own property, here always an object: truthy *)
| Inherited        (* a function or object of [Object.prototype]: truthy *)
| Missing          (* [undefined] *).
Arguments Own {A} v.
Arguments Inherited {A}.
Arguments Missing {A}.

Definition getProp {A : Type} (o : gmap string A) (k : string) : Slot A :=
  match o !! k with
  | Some v => Own v
  | None => if isInherited k then Inherited else Missing
  end.

(** ** [getTransactions]: the filter, sort and limit steps

    [transactions] is the array obtained from the cache or from the canned
    dataset (see [resolveTransactions]). *)

Module Filters.
Record t := mk {
  category : option string;
  merchant : option string;
  startDate : option string;
  endDate : option string;
  minAmount : option Q;
  maxAmount : option Q;
  account : option string;
  limit : option Z
}.

(** [{}] *)
Definition none : t := mk None None None None None None None None.

(** [{ ...filters, limit }] *)
Definition withLimit (filters : t) (limit : option Z) : t :=
  mk (category filters) (merchant filters) (startDate filters) (endDate filters)
     (minAmount filters) (maxAmount filters) (account filters) limit.
End Filters.

Section Engine.
Context {collator : Collator}.

(** [(a, b) => b.date.localeCompare(a.date)] *)
Definition byDateDesc (a b : Txn.t) : comparison :=
  localeCompare (Txn.date b) (Txn.date a).

(** The seven [if (filters.x) transactions = transactions.filter(...)]
    statements: each criterion contributes a test when it is given. *)
Definition byCategory (filters : Filters.t) : option (Txn.t -> bool) :=
  ifTruthy (Filters.category filters)
    (fun category => Some (fun t => String.eqb (Txn.category t) (toLowerCase category)))
    None.

Definition byMerchant (filters : Filters.t) : option (Txn.t -> bool) :=
  ifTruthy (Filters.merchant filters)
    (fun merchant =>
       let search := toLowerCase merchant in
       Some (fun t => includes (toLowerCase (Txn.merchant t)) search))
    None.

Definition byStartDate (filters : Filters.t) : option (Txn.t -> bool) :=
  ifTruthy (Filters.startDate filters)
    (fun startDate => Some (fun t => String.leb startDate (Txn.date t)))
    None.

Definition byEndDate (filters : Filters.t) : option (Txn.t -> bool) :=
  ifTruthy (Filters.endDate filters)
    (fun endDate => Some (fun t => String.leb (Txn.date t) endDate))
    None.

(** [filters.minAmount !== undefined] *)
Definition byMinAmount (filters : Filters.t) : option (Txn.t -> bool) :=
  match Filters.minAmount filters with
  | Some minAmount => Some (fun t => Qle_bool minAmount (Txn.amount t))
  | None => None
  end.

Definition byMaxAmount (filters : Filters.t) : option (Txn.t -> bool) :=
  match Filters.maxAmount filters with
  | Some maxAmount => Some (fun t => Qle_bool (Txn.amount t) maxAmount)
  | None => None
  end.

Definition byAccount (filters : Filters.t) : option (Txn.t -> bool) :=
  ifTruthy (Filters.account filters)
    (fun account =>
       let search := toLowerCase account in
       Some (fun t => includes (toLowerCase (Txn.account t)) search))
    None.

Definition criteria (filters : Filters.t) : list (option (Txn.t -> bool)) :=
  [byCategory filters; byMerchant filters; byStartDate filters; byEndDate filters;
   byMinAmount filters; byMaxAmount filters; byAccount filters].

Definition keep (transactions : list Txn.t) (test : option (Txn.t -> bool)) : list Txn.t :=
  match test with
  | Some p => List.filter p transactions
  | None => transactions
  end.

Definition applyFilters (transactions : list Txn.t) (filters : Filters.t) : list Txn.t :=
  fold_left keep (criteria filters) transactions.

Definition getTransactions (transactions : list Txn.t) (filters : Filters.t) : list Txn.t :=
  let transactions := applyFilters transactions filters in
  let transactions := sort byDateDesc transactions in
  match Filters.limit filters with
  | Some limit =>
      if isTruthyNumber limit then slice0 transactions limit else transactions
  | None => transactions
  end.
End Engine.

Module Bucket.
Record t := mk { total : Q; count : nat }.
End Bucket.

Module Report.
Record t := mk { total : Q; count : nat; transactions : list Txn.t }.
End Report.

Module Balance.
Record t := mk { checking : Q; creditOwed : Q; netWorth : Q }.
End Balance.

Section Aggregates.
Context {collator : Collator}.

(** The body of the [for (const t of transactions)] loop. When
    [summary[t.category]] is inherited, the two [+=] update that inherited
    object and [summary] keeps its own properties. *)
Definition tally (summary : gmap string Bucket.t) (t : Txn.t) : gmap string Bucket.t :=
  let summary :=
    match getProp summary (Txn.category t) with
    | Missing => <[Txn.category t := Bucket.mk 0%Q 0%nat]> summary
    | _ => summary
    end in
  match getProp summary (Txn.category t) with
  | Own b =>
      <[Txn.category t :=
          Bucket.mk (Bucket.total b + Qabs (Txn.amount t))%Q (Bucket.count b + 1)%nat]> summary
  | _ => summary
  end.

(** [if (bound) transactions = transactions.filter(...)], twice. *)
Definition withinDates (startDate endDate : option string) (transactions : list Txn.t)
  : list Txn.t :=
  let transactions :=
    ifTruthy startDate
      (fun startDate => List.filter (fun t => String.leb startDate (Txn.date t)) transactions)
      transactions in
  ifTruthy endDate
    (fun endDate => List.filter (fun t => String.leb (Txn.date t) endDate) transactions)
    transactions.

(** [getSpendingSummary] from line 214 on; [allTransactions] is what
    [getTransactions(userId)] returned. *)
Definition spendingSummaryOf (allTransactions : list Txn.t)
    (startDate endDate : option string) : gmap string Bucket.t :=
  let transactions :=
    List.filter (fun t =>
        Qltb (Txn.amount t) 0
        && negb (String.eqb (Txn.category t) "income")
        && negb (String.eqb (Txn.category t) "transfer"))
      allTransactions in
  let transactions := withinDates startDate endDate transactions in
  fold_left tally transactions ∅.

Definition getSpendingSummary (stored : list Txn.t) (startDate endDate : option string)
  : gmap string Bucket.t :=
  spendingSummaryOf (getTransactions stored Filters.none) startDate endDate.

(** [a.balance || 0] *)
Definition balanceOr0 (a : Acct.t) : Q :=
  match Acct.balance a with
  | Some b => b
  | None => 0%Q
  end.

(** [accounts] is what [getAccounts(userId)] returned. *)
Definition getTotalBalance (accounts : list Acct.t) : Balance.t :=
  let checking :=
    fold_left (fun sum a => (sum + balanceOr0 a)%Q)
      (List.filter (fun a => String.eqb (Acct.type a) "checking"
                             || String.eqb (Acct.type a) "depository") accounts) 0%Q in
  let credit :=
    fold_left (fun sum a => (sum + balanceOr0 a)%Q)
      (List.filter (fun a => String.eqb (Acct.type a) "credit") accounts) 0%Q in
  Balance.mk checking (Qabs credit) (checking + credit)%Q.

(** [transactions.reduce((sum, t) => sum + Math.abs(t.amount), 0)] *)
Definition sumAbs (transactions : list Txn.t) : Q :=
  fold_left (fun sum t => (sum + Qabs (Txn.amount t))%Q) transactions 0%Q.

Definition incomeSummaryOf (allTransactions : list Txn.t)
    (startDate endDate : option string) : Report.t :=
  let transactions :=
    List.filter (fun t => String.eqb (Txn.category t) "income" || Qltb 0 (Txn.amount t))
      allTransactions in
  let transactions := withinDates startDate endDate transactions in
  let total := sumAbs transactions in
  Report.mk total (length transactions) transactions.

Definition getIncomeSummary (stored : list Txn.t) (startDate endDate : option string)
  : Report.t :=
  incomeSummaryOf (getTransactions stored Filters.none) startDate endDate.

Definition categorySpendingOf (allTransactions : list Txn.t) (category : string) : Report.t :=
  let transactions :=
    List.filter (fun t => String.eqb (Txn.category t) (toLowerCase category)
                          && Qltb (Txn.amount t) 0)
      allTransactions in
  let total := sumAbs transactions in
  Report.mk total (length transactions) transactions.

Definition getCategorySpending (stored : list Txn.t) (category : string) : Report.t :=
  categorySpendingOf (getTransactions stored Filters.none) category.
End Aggregates.

(** ** The accessors over the persisted file and the module's arrays

    [data/connections.json] is re-read and re-parsed by every call of
    [loadConnections]; [MOCK_TRANSACTIONS] and [MOCK_ACCOUNTS] are arrays
    created once, when the module is loaded. *)

Record CacheEntry := { transactions : list Txn.t; cachedAt : string }.

Record Connection := {
  accessToken : string;
  itemId : string;
  accounts : option (list Acct.t);
  connectedAt : string
}.

Record FileData := {
  connections : gmap string Connection;
  transactionCache : gmap string CacheEntry
}.

(** [disk = None]: the file is missing or does not parse. *)
Definition loadConnections (disk : option FileData) : FileData :=
  match disk with
  | Some data => data
  | None => {| connections := ∅; transactionCache := ∅ |}
  end.

Definition getCachedTransactions (disk : option FileData) (userId : string) : Slot CacheEntry :=
  getProp (transactionCache (loadConnections disk)) userId.

Definition getUserConnection (disk : option FileData) (userId : string) : Slot Connection :=
  getProp (connections (loadConnections disk)) userId.

Inductive Outcome (A : Type) : Type :=
| Normal (a : A)
| TypeError.
Arguments Normal {A} a.
Arguments TypeError {A}.

(** Lines 160-167 of [getTransactions]: the content of the array that the
    filters start from, while the canned array holds what it was created
    with. Spreading [cached.transactions] throws when [cached] is a member
    of [Object.prototype], which has no such property. *)
Definition resolveTransactions (disk : option FileData) (userId : option string)
  : Outcome (list Txn.t) :=
  match ifTruthy userId (getCachedTransactions disk) Missing with
  | Own cached => Normal (transactions cached)
  | Inherited => TypeError
  | Missing => Normal MOCK_TRANSACTIONS
  end.

(** [getAccounts] under the same proviso. *)
Definition resolveAccounts (disk : option FileData) (userId : option string) : list Acct.t :=
  match ifTruthy userId (getUserConnection disk) Missing with
  | Own connection =>
      match accounts connection with
      | Some accounts => accounts
      | None => MOCK_ACCOUNTS
      end
  | _ => MOCK_ACCOUNTS
  end.

(** *** Objects and arrays with identity

    The functions of [storage.js] once more, now with the arrays and
    objects they create, copy and sort in place: an array holds references
    to its elements, and a spread or a [filter] copies the references, not
    the objects. *)
Module Store.
Inductive Cell :=
| TxnObject (t : Txn.t)
| AcctObject (a : Acct.t)
| ArrayOf (elements : list positive).

Record World := mkWorld {
  disk : option FileData;          (* data/connections.json *)
  heap : gmap positive Cell        (* the objects and arrays allocated so far *)
}.

(** Where the module's two array literals live, and the objects in them. *)
Definition MOCK_TRANSACTION_objects : list positive :=
  map Pos.of_nat (seq 1 (length MOCK_TRANSACTIONS)).
Definition MOCK_TRANSACTIONS_at : positive := 21.
Definition MOCK_ACCOUNT_objects : list positive := [22; 23]%positive.
Definition MOCK_ACCOUNTS_at : positive := 24.

(** The world once the module has been loaded. *)
Definition loaded (disk : option FileData) : World :=
  mkWorld disk
    (list_to_map
       (combine MOCK_TRANSACTION_objects (map TxnObject MOCK_TRANSACTIONS)
        ++ (MOCK_TRANSACTIONS_at, ArrayOf MOCK_TRANSACTION_objects)
        :: combine MOCK_ACCOUNT_objects (map AcctObject MOCK_ACCOUNTS)
        ++ [(MOCK_ACCOUNTS_at, ArrayOf MOCK_ACCOUNT_objects)])).

Definition M (A : Type) : Type := World -> Outcome A * World.

Definition ret {A : Type} (a : A) : M A := fun w => (Normal a, w).

Definition bind {A B : Type} (m : M A) (k : A -> M B) : M B :=
  fun w =>
    match m w with
    | (Normal a, w') => k a w'
    | (TypeError, w') => (TypeError, w')
    end.

Definition throw {A : Type} : M A := fun w => (TypeError, w).

Notation "'do' x <- m ; k" := (bind m (fun x => k))
  (at level 10, x name, m at level 100, k at level 200).

Definition readDisk : M (option FileData) := fun w => (Normal (disk w), w).

(** A new object or array: a literal, a spread, the result of [filter],
    [slice] or [JSON.parse]. *)
Definition alloc (c : Cell) : M positive :=
  fun w =>
    let l := fresh (dom (heap w)) in
    (Normal l, mkWorld (disk w) (<[l := c]> (heap w))).

Fixpoint allocAll (cs : list Cell) : M (list positive) :=
  match cs with
  | [] => ret []
  | c :: cs' => do l <- alloc c ; do ls <- allocAll cs' ; ret (l :: ls)
  end.

Definition readArray (l : positive) : M (list positive) :=
  fun w =>
    match heap w !! l with
    | Some (ArrayOf rs) => (Normal rs, w)
    | _ => (TypeError, w)
    end.

Definition readTxn (r : positive) : M Txn.t :=
  fun w =>
    match heap w !! r with
    | Some (TxnObject t) => (Normal t, w)
    | _ => (TypeError, w)
    end.

Definition readAcct (r : positive) : M Acct.t :=
  fun w =>
    match heap w !! r with
    | Some (AcctObject a) => (Normal a, w)
    | _ => (TypeError, w)
    end.

Fixpoint readAll {A : Type} (read : positive -> M A) (rs : list positive) : M (list A) :=
  match rs with
  | [] => ret []
  | r :: rs' => do x <- read r ; do xs <- readAll read rs' ; ret (x :: xs)
  end.

(** The elements of the array at [l], each with its reference. *)
Definition entries (l : positive) : M (list (positive * Txn.t)) :=
  do rs <- readArray l ;
  do ts <- readAll readTxn rs ;
  ret (combine rs ts).

Definition accountsAt (l : positive) : M (list Acct.t) :=
  do rs <- readArray l ;
  readAll readAcct rs.

(** An in-place update of the object or array at [l]. *)
Definition overwrite (l : positive) (c : Cell) : M unit :=
  fun w => (Normal tt, mkWorld (disk w) (<[l := c]> (heap w))).

(** What [JSON.parse] builds for an array of objects. *)
Definition parsed (objects : list Cell) : M positive :=
  do rs <- allocAll objects ;
  alloc (ArrayOf rs).

(** [[...array]] *)
Definition spread (l : positive) : M positive :=
  do rs <- readArray l ;
  alloc (ArrayOf rs).

Fixpoint foldM {A B : Type} (f : A -> B -> M A) (l : list B) (a : A) : M A :=
  match l with
  | [] => ret a
  | b :: l' => do a' <- f a b ; foldM f l' a'
  end.

(** [transactions = transactions.filter(p)] when the criterion is given. *)
Definition filterStep (transactions : positive) (test : option (Txn.t -> bool))
  : M positive :=
  match test with
  | Some p =>
      do es <- entries transactions ;
      alloc (ArrayOf (map fst (List.filter (fun e => p (snd e)) es)))
  | None => ret transactions
  end.

Section WithCollator.
Context {collator : Collator}.

(** Lines 160-167: [transactions] starts as a copy. *)
Definition copyStored (userId : option string) : M positive :=
  do file <- readDisk ;
  match ifTruthy userId (getCachedTransactions file) Missing with
  | Own cached =>
      do l <- parsed (map TxnObject (transactions cached)) ;
      spread l
  | Inherited => throw
  | Missing => spread MOCK_TRANSACTIONS_at
  end.

(** Lines 169-199: the filters, the sort in place, the slice. *)
Definition select (transactions : positive) (filters : Filters.t) : M positive :=
  do transactions <- foldM filterStep (criteria filters) transactions ;
  do es <- entries transactions ;
  do _ <- overwrite transactions
            (ArrayOf (map fst (sort (fun a b => byDateDesc (snd a) (snd b)) es))) ;
  match Filters.limit filters with
  | Some limit =>
      if isTruthyNumber limit
      then do rs <- readArray transactions ; alloc (ArrayOf (slice0 rs limit))
      else ret transactions
  | None => ret transactions
  end.

Definition getTransactions (userId : option string) (filters : Filters.t) : M positive :=
  do transactions <- copyStored userId ;
  select transactions filters.

(** [connection.accounts] is the array [JSON.parse] has just built. *)
Definition getAccounts (userId : option string) : M positive :=
  do file <- readDisk ;
  match ifTruthy userId (getUserConnection file) Missing with
  | Own connection =>
      match accounts connection with
      | Some accounts => parsed (map AcctObject accounts)
      | None => spread MOCK_ACCOUNTS_at
      end
  | _ => spread MOCK_ACCOUNTS_at
  end.

Definition getSpendingSummary (userId startDate endDate : option string)
  : M (gmap string Bucket.t) :=
  do l <- getTransactions userId Filters.none ;
  do es <- entries l ;
  ret (spendingSummaryOf (map snd es) startDate endDate).

Definition getTotalBalance (userId : option string) : M Balance.t :=
  do l <- getAccounts userId ;
  do accounts <- accountsAt l ;
  ret (getTotalBalance accounts).

(** The [transactions] of the two reports are new arrays, built by
    [filter]; the reports are given here by their content. *)
Definition getIncomeSummary (userId startDate endDate : option string) : M Report.t :=
  do l <- getTransactions userId Filters.none ;
  do es <- entries l ;
  ret (incomeSummaryOf (map snd es) startDate endDate).

Definition getCategorySpending (userId : option string) (category : string) : M Report.t :=
  do l <- getTransactions userId Filters.none ;
  do es <- entries l ;
  ret (categorySpendingOf (map snd es) category).
End WithCollator.
End Store.

(** ** Writing the file

    The writers of [storage.js]: each loads the whole file, changes one
    entry and writes the whole file back. Besides [connections] and
    [transactionCache] the file may hold [chatHistory]. *)

Module Chat.
Record t := mk { role : string; content : string; timestamp : string }.
End Chat.

Record File := {
  stored : FileData;
  chatHistory : option (gmap string (list Chat.t))
}.

(** What [loadConnections] returns, with [chatHistory]. *)
Definition loadFile (disk : option File) : File :=
  match disk with
  | Some data => data
  | None => {| stored := loadConnections None; chatHistory := None |}
  end.

(** The part of the file the data-access functions read. *)
Definition storedData (disk : option File) : option FileData := option_map stored disk.

(** [written = false]: [writeFileSync] threw, the error is logged and the
    file is as it was. *)
Definition saveConnections (written : bool) (disk : option File) (data : File) : option File :=
  if written then Some data else disk.

(** [o[k] = v] for an object [v]. An own property is overwritten, also
    one named [__proto__] (which [JSON.parse] creates when the file has
    such a key); otherwise the key [__proto__] names the prototype, not a
    property, and what is assigned to it does not reach [JSON.stringify]. *)
Definition setProp {A : Type} (o : gmap string A) (k : string) (v : A) : gmap string A :=
  match o !! k with
  | Some _ => <[k := v]> o
  | None => if String.eqb k "__proto__" then o else <[k := v]> o
  end.

Definition saveUserConnection (written : bool) (disk : option File) (userId : string)
    (connection : Connection) : option File :=
  let data := loadFile disk in
  saveConnections written disk
    {| stored := {| connections := setProp (connections (stored data)) userId connection;
                    transactionCache := transactionCache (stored data) |};
       chatHistory := chatHistory data |}.

(** [!!data.connections[userId]] *)
Definition hasPlaidConnection (disk : option File) (userId : string) : bool :=
  match getUserConnection (storedData disk) userId with
  | Missing => false
  | _ => true
  end.

(** [now] is [new Date().toISOString()]. *)
Definition cacheTransactions (written : bool) (now : string) (disk : option File)
    (userId : string) (transactions : list Txn.t) : option File :=
  let data := loadFile disk in
  saveConnections written disk
    {| stored := {| connections := connections (stored data);
                    transactionCache :=
                      setProp (transactionCache (stored data)) userId
                        {| transactions := transactions; cachedAt := now |} |};
       chatHistory := chatHistory data |}.

(** [data.chatHistory], after [if (!data.chatHistory) data.chatHistory = {}]. *)
Definition chatsOf (data : File) : gmap string (list Chat.t) :=
  match chatHistory data with
  | Some chats => chats
  | None => ∅
  end.

(** What [getChatHistory] returns: an array of messages, or, for a user
    identifier that names a member of [Object.prototype], that member. *)
Inductive Replay :=
| Messages (history : list Chat.t)
| PrototypeMember.

(** [data.chatHistory[userId] || []] *)
Definition getChatHistory (disk : option File) (userId : string) : Replay :=
  match getProp (chatsOf (loadFile disk)) userId with
  | Own history => Messages history
  | Inherited => PrototypeMember
  | Missing => Messages []
  end.

(** [history.slice(-20)] *)
Definition lastMessages (n : nat) (history : list Chat.t) : list Chat.t :=
  skipn (length history - n) history.

(** [push] is called on [data.chatHistory[userId]]: a member of
    [Object.prototype] has no such method. The array grows in place; the
    trimmed array is assigned. *)
Definition appendChatHistory (written : bool) (now : string) (disk : option File)
    (userId role content : string) : Outcome (option File) :=
  let data := loadFile disk in
  let chats := chatsOf data in
  match getProp chats userId with
  | Inherited => TypeError
  | slot =>
      let history :=
        match slot with
        | Own history => history
        | _ => []
        end in
      let history := (history ++ [Chat.mk role content now])%list in
      let chats := <[userId := history]> chats in
      let chats :=
        if (20 <? length history)%nat
        then setProp chats userId (lastMessages 20 history)
        else chats in
      Normal (saveConnections written disk
                {| stored := stored data; chatHistory := Some chats |})
  end.

(** The file is written only when there was something to delete. *)
Definition clearChatHistory (written : bool) (disk : option File) (userId : string)
  : option File :=
  let data := loadFile disk in
  match chatHistory data with
  | Some chats =>
      match getProp chats userId with
      | Missing => disk
      | _ => saveConnections written disk
               {| stored := stored data; chatHistory := Some (delete userId chats) |}
      end
  | None => disk
  end.

(** [agent.js], [processMessage]: the turn is saved once the agent has
    answered; [result] is the agent's final text, empty when there was
    none. *)
Definition recordTurn (written1 written2 : bool) (now1 now2 : string) (disk : option File)
    (userId userMessage result : string) : Outcome (option File) :=
  match appendChatHistory written1 now1 disk userId "user" userMessage with
  | Normal disk =>
      let finalResponse := if truthy result then result else "I processed your request." in
      appendChatHistory written2 now2 disk userId "assistant" finalResponse
  | TypeError => TypeError
  end.

(** ** The provider's records ([plaid.js]) *)

Definition upperChar (c : ascii) : ascii :=
  let n := nat_of_ascii c in
  if (97 <=? n)%nat && (n <=? 122)%nat then ascii_of_nat (n - 32) else c.

Fixpoint toUpperCase (s : string) : string :=
  match s with
  | EmptyString => EmptyString
  | String c s' => String (upperChar c) (toUpperCase s')
  end.

(** [s.replace(/ /g, '_')] *)
Fixpoint underscored (s : string) : string :=
  match s with
  | EmptyString => EmptyString
  | String c s' => String (if Ascii.eqb c " " then "_"%char else c) (underscored s')
  end.

Definition categoryMap : gmap string string :=
  list_to_map [
    ("FOOD_AND_DRINK", "food");
    ("GROCERIES", "groceries");
    ("TRANSPORTATION", "transport");
    ("TRAVEL", "travel");
    ("ENTERTAINMENT", "entertainment");
    ("SHOPPING", "shopping");
    ("HEALTH", "health");
    ("UTILITIES", "utilities");
    ("HOUSING", "housing");
    ("INCOME", "income");
    ("TRANSFER", "transfer")
  ].

(** What [mapCategory] returns: a string, or a member of
    [Object.prototype] should [categoryMap[upperCategory]] find one. *)
Inductive Mapped :=
| Category (c : string)
| NotAString.

Definition mapCategory (plaidCategory : option string) : Mapped :=
  ifTruthy plaidCategory
    (fun plaidCategory =>
       let upperCategory := underscored (toUpperCase plaidCategory) in
       match getProp categoryMap upperCategory with
       | Own c => Category c
       | Inherited => NotAString
       | Missing => Category "other"
       end)
    (Category "other").

Module PlaidTxn.
(** [primary] is [personal_finance_category?.primary] and [legacy] is
    [category?.[0]]. *)
Record t := mk {
  transaction_id : string;
  date : string;
  amount : Q;
  merchant_name : option string;
  name : string;
  primary : option string;
  legacy : option string;
  account_id : string
}.
End PlaidTxn.

(** [a || b] on optional strings *)
Definition orElse (a b : option string) : option string :=
  ifTruthy a (fun a => Some a) b.

(** The callback of [response.data.transactions.map] in [getTransactions]
    of [plaid.js]; [pending] is carried along and read by nothing here. *)
Definition fromPlaid (txn : PlaidTxn.t) : option Txn.t :=
  match mapCategory (orElse (PlaidTxn.primary txn) (PlaidTxn.legacy txn)) with
  | Category c =>
      Some (Txn.mk (PlaidTxn.transaction_id txn)
                   (PlaidTxn.date txn)
                   (- PlaidTxn.amount txn)
                   (ifTruthy (PlaidTxn.merchant_name txn) (fun m => m) (PlaidTxn.name txn))
                   c
                   (PlaidTxn.account_id txn))
  | NotAString => None
  end.

(** What [getTransactions] of [plaid.js] returns for the transactions of
    the provider's response. *)
Module Plaid.
Definition getTransactions (transactions : list PlaidTxn.t) : option (list Txn.t) :=
  mapM fromPlaid transactions.
End Plaid.

(** ** The tools of the agent ([tools.js]) *)

Module SearchArgs.
(** [limit] is a number once the schema has applied its default, integral
    as in [Filters.t]. *)
Record t := mk {
  category : option string;
  merchant : option string;
  start_date : option string;
  end_date : option string;
  min_amount : option Q;
  max_amount : option Q;
  limit : Z
}.
End SearchArgs.

(** [args.limit || 10] *)
Definition limitOr10 (limit : Z) : Z := if isTruthyNumber limit then limit else 10.

(** The filters [search_transactions] passes to [getTransactions]. *)
Definition searchFilters (args : SearchArgs.t) : Filters.t :=
  Filters.mk (SearchArgs.category args) (SearchArgs.merchant args)
    (SearchArgs.start_date args) (SearchArgs.end_date args)
    (SearchArgs.min_amount args) (SearchArgs.max_amount args)
    None (Some (limitOr10 (SearchArgs.limit args))).

(** The filters [get_recent_transactions] passes. *)
Definition recentFilters (limit : Z) : Filters.t :=
  Filters.withLimit Filters.none (Some (limitOr10 limit)).

(** * Vocabulary of the properties *)

(** The code-unit order as a collation: on ISO-8601 dates (digits, with
    hyphens at fixed positions) [localeCompare] orders as the code units
    do. *)
#[export] Instance codeUnits : Collator.
Proof.
  refine {| localeCompare := String.compare |}.
  - intros a b. apply String.compare_antisym.
  - intros a. induction a as [|x a IH]; intros [|y b] [|z c]; simpl; try congruence.
    destruct (Ascii.compare x y) eqn:Hxy; try congruence.
    + apply Ascii.compare_eq_iff in Hxy. subst y.
      destruct (Ascii.compare x z); try congruence. apply IH.
    + intros _. destruct (Ascii.compare y z) eqn:Hyz; try congruence.
      * apply Ascii.compare_eq_iff in Hyz. subst z. rewrite Hxy. congruence.
      * assert (Hxz : Ascii.compare x z = Lt).
        { revert Hxy Hyz. unfold Ascii.compare. rewrite !N.compare_lt_iff. lia. }
        rewrite Hxz. congruence.
Defined.

(** [a] comes no later than [b] under the comparator. *)
Definition inOrder {A : Type} (cmp : A -> A -> comparison) (a b : A) : Prop :=
  cmp a b <> Gt.

(** [a] is not older than [b]. *)
Definition notOlder {collator : Collator} (a b : Txn.t) : Prop :=
  localeCompare (Txn.date b) (Txn.date a) <> Gt.

(** A criterion that is not given lets every transaction through. *)
Definition passes (test : option (Txn.t -> bool)) (t : Txn.t) : bool :=
  match test with
  | Some p => p t
  | None => true
  end.

(** [{ category: c }] *)
Definition onlyCategory (c : string) : Filters.t :=
  Filters.mk (Some c) None None None None None None None.

(** How a summary is read: [Object.values(summary)] summed up. *)
Definition sumTotals (summary : gmap string Bucket.t) : Q :=
  map_fold (fun _ b sum => (sum + Bucket.total b)%Q) 0%Q summary.

Definition sumCounts (summary : gmap string Bucket.t) : nat :=
  map_fold (fun _ b sum => (sum + Bucket.count b)%nat) 0%nat summary.

(** A date within the inclusive bounds; a bound that is [null], [undefined]
    or the empty string is no bound. *)
Definition withinBounds (startDate endDate : option string) (d : string) : bool :=
  ifTruthy startDate (fun startDate => String.leb startDate d) true
  && ifTruthy endDate (fun endDate => String.leb d endDate) true.

(** A transaction that counts as spending. *)
Definition isSpend (t : Txn.t) : bool :=
  Qltb (Txn.amount t) 0
  && negb (String.eqb (Txn.category t) "income")
  && negb (String.eqb (Txn.category t) "transfer").

Definition eligibleSpend (startDate endDate : option string) (t : Txn.t) : bool :=
  isSpend t && withinBounds startDate endDate (Txn.date t).

(** A transaction that counts as income. *)
Definition isIncome (t : Txn.t) : bool :=
  String.eqb (Txn.category t) "income" || Qltb 0 (Txn.amount t).

Definition eligibleIncome (startDate endDate : option string) (t : Txn.t) : bool :=
  isIncome t && withinBounds startDate endDate (Txn.date t).

(** A transaction that counts as spending in [category]. *)
Definition isCategorySpend (category : string) (t : Txn.t) : bool :=
  String.eqb (Txn.category t) (toLowerCase category) && Qltb (Txn.amount t) 0.

Definition inCategory (k : string) (t : Txn.t) : bool := String.eqb (Txn.category t) k.

(** The bucket found under a key after the loop of [getSpendingSummary] has
    run over [l], the transactions of that category, starting from the
    bucket [o]. *)
Definition bucketAfter (o : option Bucket.t) (inherited : bool) (l : list Txn.t)
  : option Bucket.t :=
  match o, l with
  | Some b, _ =>
      Some (Bucket.mk (fold_left (fun sum t => (sum + Qabs (Txn.amount t))%Q) l (Bucket.total b))
                      (Bucket.count b + length l))
  | None, [] => None
  | None, _ :: _ => if inherited then None else Some (Bucket.mk (sumAbs l) (length l))
  end.

(** The two sums [getTotalBalance] forms, [checking] and [credit]. *)
Definition checkingSum (accounts : list Acct.t) : Q :=
  fold_left (fun sum a => (sum + balanceOr0 a)%Q)
    (List.filter (fun a => String.eqb (Acct.type a) "checking"
                           || String.eqb (Acct.type a) "depository") accounts) 0%Q.

Definition creditSum (accounts : list Acct.t) : Q :=
  fold_left (fun sum a => (sum + balanceOr0 a)%Q)
    (List.filter (fun a => String.eqb (Acct.type a) "credit") accounts) 0%Q.

(** Nothing that was stored in [w] differs in [w']: the file is the same
    and every object and array of [w] is as it was. *)
Definition unchanged (w w' : Store.World) : Prop :=
  Store.disk w' = Store.disk w
  /\ forall l, l ∈ dom (Store.heap w) -> Store.heap w' !! l = Store.heap w !! l.

(** The reference of [e] leads to an object in the state [e] records. *)
Definition pointsTo {A : Type} (cell : A -> Store.Cell) (w : Store.World)
    (e : positive * A) : Prop :=
  Store.heap w !! fst e = Some (cell (snd e)).

(** The array at [l] holds, in this order, objects in the states [xs]. *)
Definition holds {A : Type} (cell : A -> Store.Cell) (w : Store.World)
    (l : positive) (xs : list A) : Prop :=
  exists es : list (positive * A),
    Store.heap w !! l = Some (Store.ArrayOf (map fst es))
    /\ map snd es = xs
    /\ Forall (pointsTo cell w) es.

Definition holdsTxns : Store.World -> positive -> list Txn.t -> Prop :=
  holds Store.TxnObject.

Definition holdsAccts : Store.World -> positive -> list Acct.t -> Prop :=
  holds Store.AcctObject.

(** The canned arrays hold what the module created them with. *)
Definition intact (w : Store.World) : Prop :=
  holdsTxns w Store.MOCK_TRANSACTIONS_at MOCK_TRANSACTIONS
  /\ holdsAccts w Store.MOCK_ACCOUNTS_at MOCK_ACCOUNTS.

(** The array at [l] did not exist in [w], and whatever a caller then puts
    in its place (a sort in place, a push, a splice) leaves what was stored
    in [w] as it was. *)
Definition isCopy (w w' : Store.World) (l : positive) : Prop :=
  (l ∉ dom (Store.heap w))
  /\ forall elements, unchanged w (snd (Store.overwrite l (Store.ArrayOf elements) w')).

(** A history made of whole turns: a user message, then the answer. *)
Inductive wholeTurns : list Chat.t -> Prop :=
| wholeTurns_nil : wholeTurns []
| wholeTurns_turn (u a : Chat.t) (history : list Chat.t) :
    Chat.role u = "user" -> Chat.role a = "assistant" ->
    wholeTurns history -> wholeTurns (u :: a :: history).

(** The messages kept for a user, [[]] when what is found is no array. *)
Definition messagesOf (r : Replay) : list Chat.t :=
  match r with
  | Messages history => history
  | PrototypeMember => []
  end.

(** A string with a letter in [a-z]. *)
Definition isLowerChar (c : ascii) : bool :=
  let n := nat_of_ascii c in (97 <=? n)%nat && (n <=? 122)%nat.

Fixpoint hasLower (s : string) : bool :=
  match s with
  | EmptyString => false
  | String c s' => isLowerChar c || hasLower s'
  end.

(** An outgoing transfer within the bounds: a negative amount that
    [getSpendingSummary] leaves out and [getIncomeSummary] does not count. *)
Definition outgoingTransfer (startDate endDate : option string) (t : Txn.t) : bool :=
  Qltb (Txn.amount t) 0 && String.eqb (Txn.category t) "transfer"
  && withinBounds startDate endDate (Txn.date t).

(** * Properties *)

(** ** The primitives on small inputs *)

Example toLowerCase_mixed : toLowerCase "Whole Foods #12" = "whole foods #12".
Proof. reflexivity. Qed.

Example includes_inside : includes "whole foods market" "foods" = true.
Proof. reflexivity. Qed.

Example includes_empty : includes "uber" "" = true.
Proof. reflexivity. Qed.

Example includes_absent : includes "uber" "lyft" = false.
Proof. reflexivity. Qed.

Example slice0_short : slice0 [1; 2; 3]%nat 2 = [1; 2]%nat.
Proof. reflexivity. Qed.

Example slice0_long : slice0 [1; 2; 3]%nat 5 = [1; 2; 3]%nat.
Proof. reflexivity. Qed.

Example slice0_negative : slice0 [1; 2; 3]%nat (-1) = [1; 2]%nat.
Proof. reflexivity. Qed.

(** Equal keys keep their order: the sort is stable. *)
Example sort_stable :
  sort (fun a b => Nat.compare (fst a) (fst b)) [(2, "a"); (1, "b"); (2, "c"); (1, "d")]%nat
  = [(1, "b"); (1, "d"); (2, "a"); (2, "c")]%nat.
Proof. reflexivity. Qed.

Example getProp_constructor : getProp (∅ : gmap string Bucket.t) "constructor" = Inherited.
Proof. reflexivity. Qed.

Example getProp_groceries : getProp (∅ : gmap string Bucket.t) "groceries" = Missing.
Proof. reflexivity. Qed.

(** ** Sorting *)

Section SortFacts.
Context {A : Type} (cmp : A -> A -> comparison).

Lemma insertSorted_Permutation (x : A) (l : list A) :
  Permutation (insertSorted cmp x l) (x :: l).
Proof.
  induction l as [|y l IH]; simpl; [reflexivity|].
  destruct (cmp x y); try reflexivity.
  rewrite IH. apply perm_swap.
Qed.

Lemma sort_Permutation (l : list A) : Permutation (sort cmp l) l.
Proof.
  induction l as [|x l IH]; simpl; [reflexivity|].
  rewrite insertSorted_Permutation. now constructor.
Qed.

Lemma sort_In (l : list A) (x : A) : In x (sort cmp l) <-> In x l.
Proof.
  split; apply Permutation_in; [|symmetry]; apply sort_Permutation.
Qed.

(** With a comparator that is a total preorder, the result is ordered:
    no element is followed by one the comparator puts strictly before. *)
Hypothesis cmp_flip : forall a b, cmp b a = CompOpp (cmp a b).
Hypothesis cmp_trans : forall a b c, cmp a b <> Gt -> cmp b c <> Gt -> cmp a c <> Gt.

Lemma insertSorted_ordered (x : A) (l : list A) :
  StronglySorted (inOrder cmp) l -> StronglySorted (inOrder cmp) (insertSorted cmp x l).
Proof.
  induction 1 as [|y l Hl IH Hy]; simpl.
  - repeat constructor.
  - destruct (cmp x y) eqn:Hxy.
    + constructor; [now constructor|].
      constructor; [unfold inOrder; congruence|].
      apply List.Forall_forall. intros z Hz.
      apply (cmp_trans x y z); [congruence|].
      exact (proj1 (List.Forall_forall _ _) Hy z Hz).
    + constructor; [now constructor|].
      constructor; [unfold inOrder; congruence|].
      apply List.Forall_forall. intros z Hz.
      apply (cmp_trans x y z); [congruence|].
      exact (proj1 (List.Forall_forall _ _) Hy z Hz).
    + constructor; [exact IH|].
      apply List.Forall_forall. intros z Hz.
      apply (Permutation_in _ (insertSorted_Permutation x l)) in Hz.
      destruct Hz as [<-|Hz].
      * unfold inOrder. rewrite cmp_flip, Hxy. discriminate.
      * exact (proj1 (List.Forall_forall _ _) Hy z Hz).
Qed.

Lemma sort_ordered (l : list A) : StronglySorted (inOrder cmp) (sort cmp l).
Proof.
  induction l as [|x l IH]; simpl; [constructor|].
  now apply insertSorted_ordered.
Qed.
End SortFacts.

(** ** [getTransactions] *)

Section TransactionFacts.
Context {collator : Collator}.

Lemma keep_In (test : option (Txn.t -> bool)) (txs : list Txn.t) (t : Txn.t) :
  In t (keep txs test) <-> In t txs /\ passes test t = true.
Proof.
  destruct test as [p|]; simpl; [apply filter_In|tauto].
Qed.

Lemma fold_keep_In (tests : list (option (Txn.t -> bool))) (txs : list Txn.t) (t : Txn.t) :
  In t (fold_left keep tests txs) <->
  In t txs /\ forallb (fun test => passes test t) tests = true.
Proof.
  revert txs. induction tests as [|test tests IH]; intros txs; simpl.
  - tauto.
  - rewrite IH, keep_In, andb_true_iff. tauto.
Qed.

Lemma applyFilters_In (txs : list Txn.t) (filters : Filters.t) (t : Txn.t) :
  In t (applyFilters txs filters) <->
  In t txs /\ forallb (fun test => passes test t) (criteria filters) = true.
Proof. apply fold_keep_In. Qed.

Lemma getTransactions_unlimited (txs : list Txn.t) (filters : Filters.t) :
  getTransactions txs (Filters.withLimit filters None)
  = sort byDateDesc (applyFilters txs filters).
Proof. reflexivity. Qed.

Lemma getTransactions_none (txs : list Txn.t) :
  getTransactions txs Filters.none = sort byDateDesc txs.
Proof. reflexivity. Qed.

Lemma byDateDesc_flip (a b : Txn.t) : byDateDesc b a = CompOpp (byDateDesc a b).
Proof. unfold byDateDesc. apply localeCompare_flip. Qed.

Lemma byDateDesc_trans (a b c : Txn.t) :
  byDateDesc a b <> Gt -> byDateDesc b c <> Gt -> byDateDesc a c <> Gt.
Proof.
  unfold byDateDesc. intros Hab Hbc.
  exact (localeCompare_trans _ _ _ Hbc Hab).
Qed.

Lemma getTransactions_descending (txs : list Txn.t) (filters : Filters.t) :
  StronglySorted notOlder (getTransactions txs (Filters.withLimit filters None)).
Proof.
  rewrite getTransactions_unlimited.
  apply (sort_ordered byDateDesc byDateDesc_flip byDateDesc_trans).
Qed.

Lemma StronglySorted_split {A : Type} (R : A -> A -> Prop) (l1 l2 : list A) :
  StronglySorted R (l1 ++ l2) ->
  forall a b, In a l1 -> In b l2 -> R a b.
Proof.
  induction l1 as [|x l1 IH]; simpl; intros Hs a b Ha Hb; [contradiction|].
  inversion Hs as [|? ? Hs' Hx]; subst.
  destruct Ha as [<-|Ha].
  - apply (proj1 (List.Forall_forall _ _) Hx). apply in_or_app. now right.
  - now apply IH.
Qed.

Lemma slice0_nat {A : Type} (l : list A) (n : nat) :
  slice0 l (Z.of_nat n) = firstn n l.
Proof.
  unfold slice0. destruct (Z.ltb_spec (Z.of_nat n) 0); [lia|].
  now rewrite Nat2Z.id.
Qed.
End TransactionFacts.

Section TransactionClaims.
Context {collator : Collator}.

(** C10. A [limit] of 0 is falsy, so [getTransactions] does not
    truncate: it returns the whole filtered sequence, sorted by date
    descending, exactly as when [limit] is omitted; the result is empty
    only when no transaction passes the filters. *)
Theorem getTransactions_limit_zero (txs : list Txn.t) (filters : Filters.t) :
  let unlimited := getTransactions txs (Filters.withLimit filters None) in
  let limited := getTransactions txs (Filters.withLimit filters (Some 0%Z)) in
  limited = unlimited
  /\ Permutation limited (applyFilters txs filters)
  /\ StronglySorted notOlder limited
  /\ (forall t, In t limited <-> In t (applyFilters txs filters))
  /\ (limited = [] <-> applyFilters txs filters = []).
Proof.
  intros unlimited limited.
  assert (Heq : limited = unlimited) by reflexivity.
  assert (Hperm : Permutation limited (applyFilters txs filters)).
  { rewrite Heq. apply sort_Permutation. }
  split; [exact Heq|]. split; [exact Hperm|].
  split; [rewrite Heq; apply getTransactions_descending|].
  split.
  - intros t. split; apply Permutation_in; [exact Hperm|now symmetry].
  - split; intros Hnil.
    + rewrite Hnil in Hperm. now apply Permutation_nil.
    + rewrite Hnil in Hperm. apply Permutation_nil. now symmetry.
Qed.

(** C3, amended to a limit of at least 1. With [1 <= N <= M], where [M]
    is the size of the filtered result, [limit = N] returns exactly [N]
    elements: the first [N] of the filtered result sorted by date
    descending, so none of them is older than any element left out. The
    truncation is applied to the sorted sequence. *)
Theorem getTransactions_limit_prefix (txs : list Txn.t) (filters : Filters.t) (N : nat) :
  (1 <= N)%nat ->
  (N <= length (getTransactions txs (Filters.withLimit filters None)))%nat ->
  let sorted := getTransactions txs (Filters.withLimit filters None) in
  let limited := getTransactions txs (Filters.withLimit filters (Some (Z.of_nat N))) in
  limited = firstn N sorted
  /\ length limited = N
  /\ sorted = sort byDateDesc (applyFilters txs filters)
  /\ Permutation sorted (applyFilters txs filters)
  /\ StronglySorted notOlder sorted
  /\ (forall a b, In a limited -> In b (skipn N sorted) -> notOlder a b).
Proof.
  intros HN HM sorted limited.
  assert (Hlim : limited = firstn N sorted).
  { unfold limited, getTransactions. simpl.
    unfold isTruthyNumber. destruct (Z.eqb_spec (Z.of_nat N) 0); [lia|].
    simpl. apply slice0_nat. }
  split; [exact Hlim|].
  split; [rewrite Hlim; apply firstn_length_le; exact HM|].
  split; [reflexivity|].
  split; [apply sort_Permutation|].
  split; [apply getTransactions_descending|].
  intros a b Ha Hb. rewrite Hlim in Ha.
  apply (StronglySorted_split notOlder (firstn N sorted) (skipn N sorted)); trivial.
  rewrite firstn_skipn. apply getTransactions_descending.
Qed.

(** C7. The criteria compose conjunctively: a transaction is selected by
    a call with all seven criteria exactly when it is selected by each of
    the seven calls that pass one of the criteria alone. *)
Theorem getTransactions_conjunctive (txs : list Txn.t)
    (category merchant startDate endDate : option string)
    (minAmount maxAmount : option Q) (account : option string) (t : Txn.t) :
  In t (getTransactions txs
          (Filters.mk category merchant startDate endDate minAmount maxAmount account None))
  <->
  In t (getTransactions txs (Filters.mk category None None None None None None None))
  /\ In t (getTransactions txs (Filters.mk None merchant None None None None None None))
  /\ In t (getTransactions txs (Filters.mk None None startDate None None None None None))
  /\ In t (getTransactions txs (Filters.mk None None None endDate None None None None))
  /\ In t (getTransactions txs (Filters.mk None None None None minAmount None None None))
  /\ In t (getTransactions txs (Filters.mk None None None None None maxAmount None None))
  /\ In t (getTransactions txs (Filters.mk None None None None None None account None)).
Proof.
  unfold getTransactions. cbn [Filters.limit].
  rewrite !sort_In, !applyFilters_In.
  unfold criteria, byCategory, byMerchant, byStartDate, byEndDate,
    byMinAmount, byMaxAmount, byAccount.
  cbn [Filters.category Filters.merchant Filters.startDate Filters.endDate
       Filters.minAmount Filters.maxAmount Filters.account ifTruthy forallb passes].
  rewrite !andb_true_r, !andb_true_iff. tauto.
Qed.
End TransactionClaims.

(** C3 as stated fails for [N = 0]: on the canned dataset a limit of 0
    returns all 20 transactions, not 0 of them. *)
Lemma limit_zero_returns_all :
  ~ ((0 <= length (getTransactions MOCK_TRANSACTIONS (Filters.withLimit Filters.none None)))%nat ->
     length (getTransactions MOCK_TRANSACTIONS
               (Filters.withLimit Filters.none (Some (Z.of_nat 0)))) = 0%nat).
Proof. vm_compute. intros H. specialize (H (le_0_n _)). discriminate. Qed.

Lemma getTransactions_limit_prefix_witness :
  let filters := Filters.mk (Some "groceries") None None None None None None None in
  (1 <= 2)%nat
  /\ (2 <= length (getTransactions MOCK_TRANSACTIONS (Filters.withLimit filters None)))%nat
  /\ getTransactions MOCK_TRANSACTIONS (Filters.withLimit filters (Some (Z.of_nat 2)))
     = firstn 2 (getTransactions MOCK_TRANSACTIONS (Filters.withLimit filters None)).
Proof.
  intros filters.
  assert (H1 : (1 <= 2)%nat) by lia.
  assert (H2 : (2 <= length (getTransactions MOCK_TRANSACTIONS
                               (Filters.withLimit filters None)))%nat)
    by (vm_compute; lia).
  split; [exact H1|]. split; [exact H2|].
  exact (proj1 (getTransactions_limit_prefix MOCK_TRANSACTIONS filters 2 H1 H2)).
Defined.

(** ** [getSpendingSummary] *)

Section SummaryFacts.
Context {collator : Collator}.

Lemma Qltb_lt (x y : Q) : Qltb x y = true <-> (x < y)%Q.
Proof.
  unfold Qltb. rewrite negb_true_iff, <- not_true_iff_false, Qle_bool_iff.
  split; [apply Qnot_le_lt|apply Qlt_not_le].
Qed.

Lemma isSpend_spec (t : Txn.t) :
  isSpend t = true <->
  (Txn.amount t < 0)%Q /\ Txn.category t <> "income" /\ Txn.category t <> "transfer".
Proof.
  unfold isSpend. rewrite !andb_true_iff, !negb_true_iff, Qltb_lt, !String.eqb_neq.
  tauto.
Qed.

Lemma filter_filter {A : Type} (p q : A -> bool) (l : list A) :
  List.filter q (List.filter p l) = List.filter (fun x => p x && q x) l.
Proof.
  induction l as [|x l IH]; simpl; [reflexivity|].
  destruct (p x); simpl; [destruct (q x)|]; now rewrite IH.
Qed.

Lemma filter_Permutation' {A : Type} (p : A -> bool) (l l' : list A) :
  Permutation l l' -> Permutation (List.filter p l) (List.filter p l').
Proof.
  induction 1 as [|x l l' _ IH|x y l|l l' l'' _ IH1 _ IH2]; simpl.
  - reflexivity.
  - destruct (p x); [now constructor|exact IH].
  - destruct (p x), (p y); try reflexivity. apply perm_swap.
  - now transitivity (List.filter p l').
Qed.

Lemma withinDates_filter (startDate endDate : option string) (txs : list Txn.t) :
  withinDates startDate endDate txs
  = List.filter (fun t => withinBounds startDate endDate (Txn.date t)) txs.
Proof.
  unfold withinDates, withinBounds, ifTruthy.
  destruct startDate as [s|], endDate as [e|];
    try destruct (truthy s); try destruct (truthy e); simpl;
    rewrite ?filter_filter; try reflexivity;
    try (apply filter_ext; intros t; now rewrite ?andb_true_r);
    induction txs as [|t txs IH]; simpl; congruence.
Qed.

(** The transactions the loop of [getSpendingSummary] runs over. *)
Lemma spending_loop_input (all : list Txn.t) (startDate endDate : option string) :
  spendingSummaryOf all startDate endDate
  = fold_left tally (List.filter (eligibleSpend startDate endDate) all) ∅.
Proof.
  unfold spendingSummaryOf. rewrite withinDates_filter, filter_filter. reflexivity.
Qed.

(** *** One step of the loop *)

Lemma tally_own (m : gmap string Bucket.t) (t : Txn.t) (b : Bucket.t) :
  m !! Txn.category t = Some b ->
  tally m t = <[Txn.category t :=
                 Bucket.mk (Bucket.total b + Qabs (Txn.amount t))%Q (Bucket.count b + 1)%nat]> m.
Proof.
  intros H. unfold tally, getProp. cbv zeta.
  rewrite ?H. cbv iota beta. rewrite ?H. reflexivity.
Qed.

Lemma tally_inherited (m : gmap string Bucket.t) (t : Txn.t) :
  m !! Txn.category t = None -> isInherited (Txn.category t) = true ->
  tally m t = m.
Proof.
  intros H Hi. unfold tally, getProp. cbv zeta.
  rewrite ?H, ?Hi. cbv iota beta. rewrite ?H, ?Hi. reflexivity.
Qed.

Lemma tally_new (m : gmap string Bucket.t) (t : Txn.t) :
  m !! Txn.category t = None -> isInherited (Txn.category t) = false ->
  tally m t = <[Txn.category t := Bucket.mk (0 + Qabs (Txn.amount t))%Q (0 + 1)%nat]> m.
Proof.
  intros H Hi. unfold tally, getProp. cbv zeta.
  rewrite ?H, ?Hi. cbv iota beta. rewrite lookup_insert_eq.
  apply insert_insert_eq.
Qed.

Lemma tally_other (m : gmap string Bucket.t) (t : Txn.t) (k : string) :
  Txn.category t <> k -> tally m t !! k = m !! k.
Proof.
  intros Hk. destruct (m !! Txn.category t) as [b|] eqn:H.
  - rewrite (tally_own _ _ _ H). now apply lookup_insert_ne.
  - destruct (isInherited (Txn.category t)) eqn:Hi.
    + now rewrite tally_inherited.
    + rewrite tally_new by assumption. now apply lookup_insert_ne.
Qed.
End SummaryFacts.

Section SumFacts.
Local Open Scope Q_scope.

Lemma sumTotals_empty : sumTotals ∅ = 0.
Proof. apply map_fold_empty. Qed.

Lemma sumTotals_delete (m : gmap string Bucket.t) (k : string) (b : Bucket.t) :
  m !! k = Some b -> sumTotals m == sumTotals (delete k m) + Bucket.total b.
Proof.
  intros H. unfold sumTotals.
  apply (map_fold_delete Qeq (fun _ b sum => sum + Bucket.total b)); [| |exact H].
  - intros j z x y Hxy. now rewrite Hxy.
  - intros. ring.
Qed.

Lemma sumTotals_insert_new (m : gmap string Bucket.t) (k : string) (b : Bucket.t) :
  m !! k = None -> sumTotals (<[k := b]> m) == sumTotals m + Bucket.total b.
Proof.
  intros H. unfold sumTotals.
  apply (map_fold_insert Qeq (fun _ b sum => sum + Bucket.total b)); [| |exact H].
  - intros j z x y Hxy. now rewrite Hxy.
  - intros. ring.
Qed.

Lemma sumTotals_insert_own (m : gmap string Bucket.t) (k : string) (b0 b : Bucket.t) :
  m !! k = Some b0 ->
  sumTotals (<[k := b]> m) == sumTotals m - Bucket.total b0 + Bucket.total b.
Proof.
  intros H. rewrite <- insert_delete_eq.
  rewrite sumTotals_insert_new by apply lookup_delete_eq.
  rewrite (sumTotals_delete m k b0 H). ring.
Qed.

Lemma sumAbs_from (l : list Txn.t) (a : Q) :
  fold_left (fun sum t => sum + Qabs (Txn.amount t)) l a == a + sumAbs l.
Proof.
  unfold sumAbs. revert a. induction l as [|t l IH]; intros a; simpl.
  - ring.
  - rewrite (IH (a + _)), (IH (0 + _)). ring.
Qed.

Lemma sumAbs_cons (t : Txn.t) (l : list Txn.t) :
  sumAbs (t :: l) == Qabs (Txn.amount t) + sumAbs l.
Proof. unfold sumAbs at 1. simpl. rewrite sumAbs_from. ring. Qed.

Lemma sumAbs_Permutation (l l' : list Txn.t) :
  Permutation l l' -> sumAbs l == sumAbs l'.
Proof.
  induction 1 as [|x l l' _ IH|x y l|l l' l'' _ IH1 _ IH2].
  - reflexivity.
  - now rewrite !sumAbs_cons, IH.
  - rewrite !sumAbs_cons. ring.
  - now rewrite IH1.
Qed.

Lemma sumCounts_empty : sumCounts ∅ = 0%nat.
Proof. apply map_fold_empty. Qed.

(** One step of the loop adds the amount to the grand total, unless the
    category names a member of [Object.prototype]. *)
Lemma sumTotals_tally (m : gmap string Bucket.t) (t : Txn.t) :
  isInherited (Txn.category t) = false ->
  sumTotals (tally m t) == sumTotals m + Qabs (Txn.amount t).
Proof.
  intros Hi. destruct (m !! Txn.category t) as [b|] eqn:H.
  - rewrite (tally_own _ _ _ H), (sumTotals_insert_own _ _ _ _ H). simpl. ring.
  - rewrite (tally_new _ _ H Hi), (sumTotals_insert_new _ _ _ H). simpl. ring.
Qed.

Lemma sumTotals_loop (l : list Txn.t) (m : gmap string Bucket.t) :
  Forall (fun t => isInherited (Txn.category t) = false) l ->
  sumTotals (fold_left tally l m) == sumTotals m + sumAbs l.
Proof.
  intros Hl. revert m. induction Hl as [|t l Ht _ IH]; intros m; simpl.
  - unfold sumAbs. simpl. ring.
  - rewrite IH, (sumTotals_tally _ _ Ht), sumAbs_cons. ring.
Qed.
End SumFacts.

(** *** The bucket of one category *)

Section BucketFacts.
Context {collator : Collator}.

Lemma tally_loop_lookup (l : list Txn.t) (m : gmap string Bucket.t) (k : string) :
  fold_left tally l m !! k
  = bucketAfter (m !! k) (isInherited k) (List.filter (inCategory k) l).
Proof.
  revert m. induction l as [|t l IH]; intros m; simpl.
  - destruct (m !! k) as [b|]; simpl; [|reflexivity].
    destruct b as [tot cnt]. simpl. now rewrite Nat.add_0_r.
  - rewrite IH. unfold inCategory at 2.
    destruct (String.eqb_spec (Txn.category t) k) as [<-|Hk].
    + destruct (m !! Txn.category t) as [b|] eqn:H.
      * rewrite (tally_own _ _ _ H), lookup_insert_eq. simpl.
        do 2 f_equal. lia.
      * destruct (isInherited (Txn.category t)) eqn:Hi.
        -- rewrite (tally_inherited _ _ H Hi), H. simpl.
           now destruct (List.filter _ l).
        -- rewrite (tally_new _ _ H Hi), lookup_insert_eq. reflexivity.
    + now rewrite (tally_other _ _ _ Hk).
Qed.

(** The bucket of a category holds the sum and the number of the eligible
    transactions of that category, in the order [getTransactions] gives. *)
Lemma getSpendingSummary_lookup (txs : list Txn.t) (startDate endDate : option string)
    (k : string) :
  getSpendingSummary txs startDate endDate !! k
  = match List.filter (fun t => eligibleSpend startDate endDate t && inCategory k t)
            (getTransactions txs Filters.none) with
    | [] => None
    | l => if isInherited k then None else Some (Bucket.mk (sumAbs l) (length l))
    end.
Proof.
  unfold getSpendingSummary. rewrite spending_loop_input, tally_loop_lookup.
  rewrite lookup_empty, filter_filter. unfold bucketAfter.
  now destruct (List.filter _ _).
Qed.

Lemma eligible_sorted_Permutation (txs : list Txn.t) (p : Txn.t -> bool) :
  Permutation (List.filter p (getTransactions txs Filters.none)) (List.filter p txs).
Proof. apply filter_Permutation'. rewrite getTransactions_none. apply sort_Permutation. Qed.
End BucketFacts.

Section SummaryClaims.
Context {collator : Collator}.
Local Open Scope Q_scope.

Lemma eligibleSpend_spec (startDate endDate : option string) (t : Txn.t) :
  eligibleSpend startDate endDate t = true <->
  Txn.amount t < 0 /\ Txn.category t <> "income" /\ Txn.category t <> "transfer"
  /\ withinBounds startDate endDate (Txn.date t) = true.
Proof. unfold eligibleSpend. rewrite andb_true_iff, isSpend_spec. tauto. Qed.

Lemma no_bucket_for (txs : list Txn.t) (startDate endDate : option string) (k : string) :
  (forall t, In t txs -> eligibleSpend startDate endDate t = true -> Txn.category t <> k) ->
  getSpendingSummary txs startDate endDate !! k = None.
Proof.
  intros Hk. rewrite getSpendingSummary_lookup.
  destruct (List.filter _ _) as [|t l] eqn:Hf; [reflexivity|].
  assert (Ht : In t (t :: l)) by now left.
  rewrite <- Hf in Ht. apply filter_In in Ht. destruct Ht as [Ht Hp].
  apply andb_true_iff in Hp. destruct Hp as [He Hc].
  apply String.eqb_eq in Hc.
  rewrite getTransactions_none, sort_In in Ht.
  now destruct (Hk t Ht He).
Qed.

(** C6. Whatever the transactions and the date bounds, the result of
    [getSpendingSummary] has no key [income] and no key [transfer], and
    every key it has carries a count of at least 1: it is the category of
    some eligible transaction. *)
Theorem getSpendingSummary_keys (txs : list Txn.t) (startDate endDate : option string) :
  getSpendingSummary txs startDate endDate !! "income" = None
  /\ getSpendingSummary txs startDate endDate !! "transfer" = None
  /\ forall k b, getSpendingSummary txs startDate endDate !! k = Some b ->
       (1 <= Bucket.count b)%nat
       /\ exists t, In t txs /\ eligibleSpend startDate endDate t = true
                    /\ Txn.category t = k.
Proof.
  split; [|split].
  - apply no_bucket_for. intros t _ He. apply eligibleSpend_spec in He. tauto.
  - apply no_bucket_for. intros t _ He. apply eligibleSpend_spec in He. tauto.
  - intros k b. rewrite getSpendingSummary_lookup.
    destruct (List.filter _ _) as [|t l] eqn:Hf; [discriminate|].
    destruct (isInherited k); [discriminate|].
    intros [= <-]. split; [simpl; lia|].
    assert (Ht : In t (t :: l)) by now left.
    rewrite <- Hf in Ht. apply filter_In in Ht. destruct Ht as [Ht Hp].
    apply andb_true_iff in Hp. destruct Hp as [He Hc].
    apply String.eqb_eq in Hc.
    rewrite getTransactions_none, sort_In in Ht.
    now exists t.
Qed.

End SummaryClaims.


Lemma categories_not_inherited :
  forallb (fun k => negb (isInherited k)) CATEGORIES = true.
Proof. reflexivity. Qed.


(** ** The accessors and the arrays they hand out *)

Section StoreFacts.
Context {collator : Collator}.
Import Store.

Lemma unchanged_refl (w : World) : unchanged w w.
Proof. split; [reflexivity|tauto]. Qed.

Lemma unchanged_dom (w0 w : World) (l : positive) :
  unchanged w0 w -> l ∈ dom (heap w0) -> l ∈ dom (heap w).
Proof.
  intros [_ H] Hl. specialize (H l Hl).
  apply elem_of_dom. rewrite H. now apply elem_of_dom.
Qed.

Lemma unchanged_trans (w0 w1 w2 : World) :
  unchanged w0 w1 -> unchanged w1 w2 -> unchanged w0 w2.
Proof.
  intros H01 H12.
  assert (Hdom : forall l, l ∈ dom (heap w0) -> l ∈ dom (heap w1))
    by (intros l; now apply unchanged_dom).
  destruct H01 as [Hd1 Hh1], H12 as [Hd2 Hh2]. split; [congruence|].
  intros l Hl. rewrite Hh2 by now apply Hdom. now apply Hh1.
Qed.

Lemma unchanged_insert (w0 w : World) (l : positive) (c : Cell) :
  unchanged w0 w -> l ∉ dom (heap w0) ->
  unchanged w0 (mkWorld (disk w) (<[l := c]> (heap w))).
Proof.
  intros [Hd Hh] Hl. split; [exact Hd|].
  intros l0 Hl0. simpl. rewrite lookup_insert_ne; [now apply Hh|].
  intros ->. contradiction.
Qed.

Lemma outside_base (w0 w : World) (l : positive) :
  unchanged w0 w -> l ∉ dom (heap w) -> l ∉ dom (heap w0).
Proof. intros Hu Hl Hin. apply Hl. now apply (unchanged_dom w0). Qed.

Lemma isCopy_intro (w0 w : World) (l : positive) :
  unchanged w0 w -> l ∉ dom (heap w0) -> isCopy w0 w l.
Proof.
  intros Hu Hl. split; [exact Hl|].
  intros elements. simpl. now apply unchanged_insert.
Qed.

Lemma pointsTo_dom {A : Type} (cell : A -> Cell) (w : World) (e : positive * A) :
  pointsTo cell w e -> fst e ∈ dom (heap w).
Proof. unfold pointsTo. intros H. apply elem_of_dom. now rewrite H. Qed.

Lemma pointsTo_unchanged {A : Type} (cell : A -> Cell) (w w' : World) (e : positive * A) :
  unchanged w w' -> pointsTo cell w e -> pointsTo cell w' e.
Proof.
  intros [_ Hh] He. unfold pointsTo. rewrite Hh; [exact He|].
  now apply (pointsTo_dom cell).
Qed.

Lemma holds_unchanged {A : Type} (cell : A -> Cell) (w w' : World) (l : positive)
    (xs : list A) :
  unchanged w w' -> holds cell w l xs -> holds cell w' l xs.
Proof.
  intros Hu (es & Hl & Hxs & Hes). exists es. split; [|split; [exact Hxs|]].
  - destruct Hu as [_ Hh]. rewrite Hh; [exact Hl|]. apply elem_of_dom. now rewrite Hl.
  - eapply List.Forall_impl; [|exact Hes]. intros e. now apply pointsTo_unchanged.
Qed.

Lemma unchanged_intact (w0 w : World) : unchanged w0 w -> intact w0 -> intact w.
Proof.
  intros Hu [Ht Ha]. split; now apply (holds_unchanged _ w0).
Qed.

(** *** Running the steps *)

Lemma alloc_run (w : World) (c : Cell) :
  exists l w', alloc c w = (Normal l, w')
    /\ unchanged w w' /\ (l ∉ dom (heap w)) /\ heap w' !! l = Some c.
Proof.
  eexists _, _. split; [reflexivity|].
  assert (Hf : fresh (dom (heap w)) ∉ dom (heap w)) by apply is_fresh.
  split; [apply unchanged_insert; [apply unchanged_refl|exact Hf]|].
  split; [exact Hf|]. simpl. apply lookup_insert_eq.
Qed.

Lemma allocAll_run {A : Type} (cell : A -> Cell) (xs : list A) (w : World) :
  exists (es : list (positive * A)) w',
    allocAll (map cell xs) w = (Normal (map fst es), w')
    /\ unchanged w w' /\ map snd es = xs /\ Forall (pointsTo cell w') es.
Proof.
  revert w. induction xs as [|x xs IH]; intros w; simpl.
  - exists [], w. split; [reflexivity|]. split; [apply unchanged_refl|].
    split; [reflexivity|constructor].
  - destruct (alloc_run w (cell x)) as (l & w1 & Hrun & Hu1 & Hl & Hc).
    destruct (IH w1) as (es & w2 & Hrun2 & Hu2 & Hxs & Hes).
    exists ((l, x) :: es), w2. unfold bind. rewrite Hrun, Hrun2. simpl.
    split; [reflexivity|]. split; [now apply (unchanged_trans _ w1)|].
    split; [now rewrite Hxs|]. constructor; [|exact Hes].
    apply (pointsTo_unchanged cell w1); [exact Hu2|exact Hc].
Qed.

Lemma array_run {A : Type} (cell : A -> Cell) (es : list (positive * A)) (w : World) :
  Forall (pointsTo cell w) es ->
  exists l w', alloc (ArrayOf (map fst es)) w = (Normal l, w')
    /\ unchanged w w' /\ (l ∉ dom (heap w)) /\ holds cell w' l (map snd es).
Proof.
  intros Hes. destruct (alloc_run w (ArrayOf (map fst es))) as (l & w' & Hrun & Hu & Hl & Hc).
  exists l, w'. split; [exact Hrun|]. split; [exact Hu|]. split; [exact Hl|].
  exists es. split; [exact Hc|]. split; [reflexivity|].
  eapply List.Forall_impl; [|exact Hes]. intros e. now apply pointsTo_unchanged.
Qed.

Lemma parsed_run {A : Type} (cell : A -> Cell) (xs : list A) (w : World) :
  exists l w', parsed (map cell xs) w = (Normal l, w')
    /\ unchanged w w' /\ (l ∉ dom (heap w)) /\ holds cell w' l xs.
Proof.
  destruct (allocAll_run cell xs w) as (es & w1 & Hrun & Hu1 & Hxs & Hes).
  destruct (array_run cell es w1 Hes) as (l & w2 & Hrun2 & Hu2 & Hl & Hh).
  exists l, w2. unfold parsed, bind. rewrite Hrun, Hrun2.
  split; [reflexivity|]. split; [now apply (unchanged_trans _ w1)|].
  split; [now apply (outside_base w w1)|]. now rewrite <- Hxs.
Qed.

Lemma spread_run {A : Type} (cell : A -> Cell) (w : World) (l : positive) (xs : list A) :
  holds cell w l xs ->
  exists l' w', spread l w = (Normal l', w')
    /\ unchanged w w' /\ (l' ∉ dom (heap w)) /\ holds cell w' l' xs.
Proof.
  intros (es & Hl & Hxs & Hes).
  destruct (array_run cell es w Hes) as (l' & w' & Hrun & Hu & Hl' & Hh).
  exists l', w'. unfold spread, bind, readArray. rewrite Hl, Hrun.
  split; [reflexivity|]. split; [exact Hu|]. split; [exact Hl'|]. now rewrite <- Hxs.
Qed.
End StoreFacts.

Section ReadFacts.
Context {collator : Collator}.
Import Store.

Lemma readAll_run {A : Type} (cell : A -> Cell) (read : positive -> M A)
    (es : list (positive * A)) (w : World) :
  (forall e, pointsTo cell w e -> read (fst e) w = (Normal (snd e), w)) ->
  Forall (pointsTo cell w) es ->
  readAll read (map fst es) w = (Normal (map snd es), w).
Proof.
  intros Hread. induction 1 as [|e es He _ IH]; simpl; [reflexivity|].
  unfold bind. now rewrite (Hread e He), IH.
Qed.

Lemma readTxn_run (w : World) (e : positive * Txn.t) :
  pointsTo TxnObject w e -> readTxn (fst e) w = (Normal (snd e), w).
Proof. unfold pointsTo, readTxn. now intros ->. Qed.

Lemma readAcct_run (w : World) (e : positive * Acct.t) :
  pointsTo AcctObject w e -> readAcct (fst e) w = (Normal (snd e), w).
Proof. unfold pointsTo, readAcct. now intros ->. Qed.

Lemma combine_fst_snd {A B : Type} (es : list (A * B)) :
  combine (map fst es) (map snd es) = es.
Proof. induction es as [|[a b] es IH]; simpl; [reflexivity|now rewrite IH]. Qed.

Lemma entries_run (w : World) (l : positive) (es : list (positive * Txn.t)) :
  heap w !! l = Some (ArrayOf (map fst es)) ->
  Forall (pointsTo TxnObject w) es ->
  entries l w = (Normal es, w).
Proof.
  intros Hl Hes. unfold entries, bind, readArray. rewrite Hl.
  rewrite (readAll_run TxnObject readTxn es w (readTxn_run w) Hes).
  unfold ret. now rewrite combine_fst_snd.
Qed.

Lemma accountsAt_run (w : World) (l : positive) (xs : list Acct.t) :
  holdsAccts w l xs -> accountsAt l w = (Normal xs, w).
Proof.
  intros (es & Hl & Hxs & Hes). unfold accountsAt, bind, readArray. rewrite Hl.
  now rewrite (readAll_run AcctObject readAcct es w (readAcct_run w) Hes), Hxs.
Qed.

Lemma map_snd_filter {A B : Type} (p : B -> bool) (es : list (A * B)) :
  map snd (List.filter (fun e => p (snd e)) es) = List.filter p (map snd es).
Proof.
  induction es as [|e es IH]; simpl; [reflexivity|].
  destruct (p (snd e)); simpl; now rewrite IH.
Qed.

Lemma map_snd_insertSorted {A B : Type} (cmp : B -> B -> comparison) (e : A * B)
    (es : list (A * B)) :
  map snd (insertSorted (fun a b => cmp (snd a) (snd b)) e es)
  = insertSorted cmp (snd e) (map snd es).
Proof.
  induction es as [|e' es IH]; simpl; [reflexivity|].
  destruct (cmp (snd e) (snd e')); simpl; now rewrite ?IH.
Qed.

Lemma map_snd_sort {A B : Type} (cmp : B -> B -> comparison) (es : list (A * B)) :
  map snd (sort (fun a b => cmp (snd a) (snd b)) es) = sort cmp (map snd es).
Proof.
  induction es as [|e es IH]; simpl; [reflexivity|].
  now rewrite map_snd_insertSorted, IH.
Qed.

Lemma slice0_map {A B : Type} (f : A -> B) (l : list A) (e : Z) :
  slice0 (map f l) e = map f (slice0 l e).
Proof.
  unfold slice0. rewrite length_map.
  destruct (e <? 0)%Z; apply firstn_map.
Qed.

Lemma Forall_slice0 {A : Type} (P : A -> Prop) (l : list A) (e : Z) :
  Forall P l -> Forall P (slice0 l e).
Proof. intros H. unfold slice0. destruct (e <? 0)%Z; now apply Forall_take. Qed.

Lemma Forall_within {A : Type} (P : A -> Prop) (l l' : list A) :
  (forall x, In x l' -> In x l) -> Forall P l -> Forall P l'.
Proof.
  intros Hsub Hl. apply List.Forall_forall. intros x Hx.
  exact (proj1 (List.Forall_forall P l) Hl x (Hsub x Hx)).
Qed.

Lemma filterStep_run (w0 w : World) (l : positive) (xs : list Txn.t)
    (test : option (Txn.t -> bool)) :
  unchanged w0 w -> l ∉ dom (heap w0) -> holdsTxns w l xs ->
  exists l' w', filterStep l test w = (Normal l', w')
    /\ unchanged w0 w' /\ (l' ∉ dom (heap w0)) /\ holdsTxns w' l' (keep xs test).
Proof.
  intros Hu Hl Hxs. destruct test as [p|]; simpl; [|now exists l, w].
  destruct Hxs as (es & Hes & <- & Hpt).
  unfold bind. rewrite (entries_run w l es Hes Hpt).
  destruct (array_run TxnObject (List.filter (fun e => p (snd e)) es) w)
    as (l' & w' & Hrun & Hu' & Hl' & Hh).
  { apply (Forall_within _ es); [|exact Hpt]. intros e He. now apply filter_In in He. }
  exists l', w'. split; [exact Hrun|]. split; [now apply (unchanged_trans _ w)|].
  split; [now apply (outside_base w0 w)|].
  unfold holdsTxns. now rewrite <- map_snd_filter.
Qed.

Lemma foldM_filterStep_run (tests : list (option (Txn.t -> bool)))
    (w0 w : World) (l : positive) (xs : list Txn.t) :
  unchanged w0 w -> l ∉ dom (heap w0) -> holdsTxns w l xs ->
  exists l' w', foldM filterStep tests l w = (Normal l', w')
    /\ unchanged w0 w' /\ (l' ∉ dom (heap w0))
    /\ holdsTxns w' l' (fold_left keep tests xs).
Proof.
  revert w l xs. induction tests as [|test tests IH]; intros w l xs Hu Hl Hxs; simpl.
  - now exists l, w.
  - destruct (filterStep_run w0 w l xs test Hu Hl Hxs)
      as (l1 & w1 & Hrun & Hu1 & Hl1 & Hxs1).
    unfold bind. rewrite Hrun. now apply IH.
Qed.
End ReadFacts.

Section AccessorFacts.
Context {collator : Collator}.

Lemma bind_readDisk {A : Type} (k : option FileData -> Store.M A) (w : Store.World) :
  Store.bind Store.readDisk k w = k (Store.disk w) w.
Proof. reflexivity. Qed.

Lemma copyStored_run (w : Store.World) (userId : option string) :
  intact w ->
  match resolveTransactions (Store.disk w) userId with
  | Normal txs =>
      exists l w', Store.copyStored userId w = (Normal l, w')
        /\ unchanged w w' /\ (l ∉ dom (Store.heap w)) /\ holdsTxns w' l txs
  | TypeError => Store.copyStored userId w = (TypeError, w)
  end.
Proof.
  intros [Hmock _].
  unfold Store.copyStored, resolveTransactions. rewrite bind_readDisk.
  destruct (ifTruthy userId (getCachedTransactions (Store.disk w)) Missing) as [cached| |].
  - destruct (parsed_run Store.TxnObject (transactions cached) w)
      as (l0 & w0 & Hrun0 & Hu0 & Hl0 & Hh0).
    destruct (spread_run Store.TxnObject w0 l0 _ Hh0) as (l1 & w1 & Hrun1 & Hu1 & Hl1 & Hh1).
    exists l1, w1. unfold Store.bind. rewrite Hrun0, Hrun1.
    split; [reflexivity|]. split; [now apply (unchanged_trans _ w0)|].
    split; [now apply (outside_base w w0)|exact Hh1].
  - reflexivity.
  - now apply (spread_run Store.TxnObject).
Qed.

Lemma select_run (w0 w : Store.World) (l : positive) (xs : list Txn.t)
    (filters : Filters.t) :
  unchanged w0 w -> l ∉ dom (Store.heap w0) -> holdsTxns w l xs ->
  exists l' w', Store.select l filters w = (Normal l', w')
    /\ unchanged w0 w' /\ (l' ∉ dom (Store.heap w0))
    /\ holdsTxns w' l' (getTransactions xs filters).
Proof.
  intros Hu Hl Hxs. unfold Store.select, getTransactions, applyFilters.
  destruct (foldM_filterStep_run (criteria filters) w0 w l xs Hu Hl Hxs)
    as (l1 & w1 & Hrun & Hu1 & Hl1 & (es & Hes & Hfiltered & Hpt)).
  unfold Store.bind at 1. rewrite Hrun.
  unfold Store.bind at 1. rewrite (entries_run w1 l1 es Hes Hpt).
  unfold Store.bind at 1, Store.overwrite.
  set (sorted := sort (fun a b => byDateDesc (snd a) (snd b)) es).
  set (w2 := Store.mkWorld (Store.disk w1)
               (<[l1 := Store.ArrayOf (map fst sorted)]> (Store.heap w1))).
  assert (Hu2 : unchanged w0 w2) by now apply unchanged_insert.
  assert (Hes2 : Store.heap w2 !! l1 = Some (Store.ArrayOf (map fst sorted)))
    by apply lookup_insert_eq.
  assert (Hpt2 : Forall (pointsTo Store.TxnObject w2) sorted).
  { apply List.Forall_forall. intros e He. apply sort_In in He.
    pose proof (proj1 (List.Forall_forall _ _) Hpt e He) as Hpe.
    unfold pointsTo in *. simpl. rewrite lookup_insert_ne; [exact Hpe|].
    intros Heq. rewrite <- Heq, Hes in Hpe. discriminate. }
  assert (Hsorted : map snd sorted = sort byDateDesc (fold_left keep (criteria filters) xs)).
  { unfold sorted. now rewrite map_snd_sort, Hfiltered. }
  destruct (Filters.limit filters) as [limit|]; [destruct (isTruthyNumber limit)|].
  - unfold Store.bind, Store.readArray. rewrite Hes2, slice0_map.
    destruct (array_run Store.TxnObject (slice0 sorted limit) w2)
      as (l3 & w3 & Hrun3 & Hu3 & Hl3 & Hh3).
    { now apply Forall_slice0. }
    exists l3, w3. split; [exact Hrun3|]. split; [now apply (unchanged_trans _ w2)|].
    split; [now apply (outside_base w0 w2)|].
    unfold holdsTxns. now rewrite <- Hsorted, slice0_map.
  - exists l1, w2. split; [reflexivity|]. split; [exact Hu2|]. split; [exact Hl1|].
    exists sorted. now split.
  - exists l1, w2. split; [reflexivity|]. split; [exact Hu2|]. split; [exact Hl1|].
    exists sorted. now split.
Qed.

(** [Store.getTransactions] returns a new array holding what
    [getTransactions] computes from the resolved sequence, and throws
    exactly when the resolution does. *)
Lemma getTransactions_run (w : Store.World) (userId : option string) (filters : Filters.t) :
  intact w ->
  match resolveTransactions (Store.disk w) userId with
  | Normal txs =>
      exists l w', Store.getTransactions userId filters w = (Normal l, w')
        /\ unchanged w w' /\ (l ∉ dom (Store.heap w))
        /\ holdsTxns w' l (getTransactions txs filters)
  | TypeError => Store.getTransactions userId filters w = (TypeError, w)
  end.
Proof.
  intros Hw. pose proof (copyStored_run w userId Hw) as Hc.
  unfold Store.getTransactions, Store.bind.
  destruct (resolveTransactions (Store.disk w) userId) as [txs|].
  - destruct Hc as (l0 & w0 & -> & Hu0 & Hl0 & Hxs0).
    now apply select_run.
  - now rewrite Hc.
Qed.

Lemma getAccounts_run (w : Store.World) (userId : option string) :
  intact w ->
  exists l w', Store.getAccounts userId w = (Normal l, w')
    /\ unchanged w w' /\ (l ∉ dom (Store.heap w))
    /\ holdsAccts w' l (resolveAccounts (Store.disk w) userId).
Proof.
  intros [_ Hmock].
  unfold Store.getAccounts, resolveAccounts. rewrite bind_readDisk.
  destruct (ifTruthy userId (getUserConnection (Store.disk w)) Missing) as [c| |];
    [destruct (accounts c)|..].
  - apply (parsed_run Store.AcctObject).
  - now apply (spread_run Store.AcctObject).
  - now apply (spread_run Store.AcctObject).
  - now apply (spread_run Store.AcctObject).
Qed.
End AccessorFacts.

Section EngineFacts.
Context {collator : Collator}.

(** Reading back the array [Store.getTransactions] returned. *)
Lemma entries_of_result (w : Store.World) (l : positive) (xs : list Txn.t) :
  holdsTxns w l xs ->
  exists es, Store.entries l w = (Normal es, w) /\ map snd es = xs.
Proof.
  intros (es & Hes & Hxs & Hpt). exists es. split; [|exact Hxs].
  now apply entries_run.
Qed.

(** The engine functions return what their bodies compute from the
    resolved sequence, and leave the stored data as it was. *)
Lemma getSpendingSummary_run (w : Store.World) (userId startDate endDate : option string) :
  intact w ->
  match resolveTransactions (Store.disk w) userId with
  | Normal txs =>
      exists w', Store.getSpendingSummary userId startDate endDate w
                 = (Normal (getSpendingSummary txs startDate endDate), w')
        /\ unchanged w w'
  | TypeError => Store.getSpendingSummary userId startDate endDate w = (TypeError, w)
  end.
Proof.
  intros Hw. pose proof (getTransactions_run w userId Filters.none Hw) as Hg.
  destruct (resolveTransactions (Store.disk w) userId) as [txs|];
    unfold Store.getSpendingSummary, Store.bind at 1.
  - destruct Hg as (l & w' & -> & Hu & _ & Hl).
    destruct (entries_of_result _ _ _ Hl) as (es & Hrun & Hes).
    unfold Store.bind. rewrite Hrun, Hes. now exists w'.
  - now rewrite Hg.
Qed.

Lemma getIncomeSummary_run (w : Store.World) (userId startDate endDate : option string) :
  intact w ->
  match resolveTransactions (Store.disk w) userId with
  | Normal txs =>
      exists w', Store.getIncomeSummary userId startDate endDate w
                 = (Normal (getIncomeSummary txs startDate endDate), w')
        /\ unchanged w w'
  | TypeError => Store.getIncomeSummary userId startDate endDate w = (TypeError, w)
  end.
Proof.
  intros Hw. pose proof (getTransactions_run w userId Filters.none Hw) as Hg.
  destruct (resolveTransactions (Store.disk w) userId) as [txs|];
    unfold Store.getIncomeSummary, Store.bind at 1.
  - destruct Hg as (l & w' & -> & Hu & _ & Hl).
    destruct (entries_of_result _ _ _ Hl) as (es & Hrun & Hes).
    unfold Store.bind. rewrite Hrun, Hes. now exists w'.
  - now rewrite Hg.
Qed.

Lemma getCategorySpending_run (w : Store.World) (userId : option string) (category : string) :
  intact w ->
  match resolveTransactions (Store.disk w) userId with
  | Normal txs =>
      exists w', Store.getCategorySpending userId category w
                 = (Normal (getCategorySpending txs category), w')
        /\ unchanged w w'
  | TypeError => Store.getCategorySpending userId category w = (TypeError, w)
  end.
Proof.
  intros Hw. pose proof (getTransactions_run w userId Filters.none Hw) as Hg.
  destruct (resolveTransactions (Store.disk w) userId) as [txs|];
    unfold Store.getCategorySpending, Store.bind at 1.
  - destruct Hg as (l & w' & -> & Hu & _ & Hl).
    destruct (entries_of_result _ _ _ Hl) as (es & Hrun & Hes).
    unfold Store.bind. rewrite Hrun, Hes. now exists w'.
  - now rewrite Hg.
Qed.

Lemma getTotalBalance_run (w : Store.World) (userId : option string) :
  intact w ->
  exists w', Store.getTotalBalance userId w
             = (Normal (getTotalBalance (resolveAccounts (Store.disk w) userId)), w')
    /\ unchanged w w'.
Proof.
  intros Hw. destruct (getAccounts_run w userId Hw) as (l & w' & Hrun & Hu & _ & Hl).
  unfold Store.getTotalBalance, Store.bind at 1. rewrite Hrun.
  unfold Store.bind. rewrite (accountsAt_run w' l _ Hl). now exists w'.
Qed.

Lemma getTransactions_frame (w : Store.World) (userId : option string)
    (filters : Filters.t) :
  intact w -> unchanged w (snd (Store.getTransactions userId filters w)).
Proof.
  intros Hw. pose proof (getTransactions_run w userId filters Hw) as Hg.
  destruct (resolveTransactions (Store.disk w) userId).
  - destruct Hg as (l & w' & -> & Hu & _). exact Hu.
  - rewrite Hg. apply unchanged_refl.
Qed.

Lemma getTransactions_result (w : Store.World) (userId : option string)
    (filters : Filters.t) (l : positive) :
  intact w ->
  fst (Store.getTransactions userId filters w) = Normal l ->
  isCopy w (snd (Store.getTransactions userId filters w)) l
  /\ exists txs, resolveTransactions (Store.disk w) userId = Normal txs
       /\ holdsTxns (snd (Store.getTransactions userId filters w)) l
            (getTransactions txs filters).
Proof.
  intros Hw. pose proof (getTransactions_run w userId filters Hw) as Hg.
  destruct (resolveTransactions (Store.disk w) userId) as [txs|].
  - destruct Hg as (l' & w' & -> & Hu & Hl & Hc). simpl. intros [= <-].
    split; [now apply isCopy_intro|now exists txs].
  - rewrite Hg. discriminate.
Qed.

Lemma getSpendingSummary_frame (w : Store.World) (userId startDate endDate : option string) :
  intact w -> unchanged w (snd (Store.getSpendingSummary userId startDate endDate w)).
Proof.
  intros Hw. pose proof (getSpendingSummary_run w userId startDate endDate Hw) as Hg.
  destruct (resolveTransactions (Store.disk w) userId).
  - destruct Hg as (w' & -> & Hu). exact Hu.
  - rewrite Hg. apply unchanged_refl.
Qed.

Lemma getIncomeSummary_frame (w : Store.World) (userId startDate endDate : option string) :
  intact w -> unchanged w (snd (Store.getIncomeSummary userId startDate endDate w)).
Proof.
  intros Hw. pose proof (getIncomeSummary_run w userId startDate endDate Hw) as Hg.
  destruct (resolveTransactions (Store.disk w) userId).
  - destruct Hg as (w' & -> & Hu). exact Hu.
  - rewrite Hg. apply unchanged_refl.
Qed.

Lemma getCategorySpending_frame (w : Store.World) (userId : option string)
    (category : string) :
  intact w -> unchanged w (snd (Store.getCategorySpending userId category w)).
Proof.
  intros Hw. pose proof (getCategorySpending_run w userId category Hw) as Hg.
  destruct (resolveTransactions (Store.disk w) userId).
  - destruct Hg as (w' & -> & Hu). exact Hu.
  - rewrite Hg. apply unchanged_refl.
Qed.

(** C4. In a world whose canned arrays are as created, and for every
    user identifier: [getTransactions] and [getAccounts] leave the file
    and every existing object and array as they were; the array they
    return is a new one holding the stored data (filtered and sorted for
    transactions), and whatever is put in place of that array afterwards
    still leaves the stored data, the canned datasets among them, as it
    was; the four engine functions leave the stored data as it was too. *)
Theorem accessors_return_copies (w : Store.World) (userId : option string)
    (filters : Filters.t) :
  intact w ->
  (unchanged w (snd (Store.getTransactions userId filters w))
   /\ forall l, fst (Store.getTransactions userId filters w) = Normal l ->
        isCopy w (snd (Store.getTransactions userId filters w)) l
        /\ exists txs, resolveTransactions (Store.disk w) userId = Normal txs
             /\ holdsTxns (snd (Store.getTransactions userId filters w)) l
                  (getTransactions txs filters))
  /\ (unchanged w (snd (Store.getAccounts userId w))
      /\ exists l, fst (Store.getAccounts userId w) = Normal l
           /\ isCopy w (snd (Store.getAccounts userId w)) l
           /\ holdsAccts (snd (Store.getAccounts userId w)) l
                (resolveAccounts (Store.disk w) userId))
  /\ (forall startDate endDate,
        unchanged w (snd (Store.getSpendingSummary userId startDate endDate w)))
  /\ unchanged w (snd (Store.getTotalBalance userId w))
  /\ (forall startDate endDate,
        unchanged w (snd (Store.getIncomeSummary userId startDate endDate w)))
  /\ (forall category, unchanged w (snd (Store.getCategorySpending userId category w)))
  /\ (forall l elements,
        fst (Store.getTransactions userId filters w) = Normal l ->
        intact (snd (Store.overwrite l (Store.ArrayOf elements)
                       (snd (Store.getTransactions userId filters w)))))
  /\ (forall l elements,
        fst (Store.getAccounts userId w) = Normal l ->
        intact (snd (Store.overwrite l (Store.ArrayOf elements)
                       (snd (Store.getAccounts userId w))))).
Proof.
  intros Hw.
  split; [split|split; [split|split; [|split; [|split; [|split; [|split]]]]]].
  - now apply getTransactions_frame.
  - intros l. now apply getTransactions_result.
  - destruct (getAccounts_run w userId Hw) as (l & w' & -> & Hu & _). exact Hu.
  - destruct (getAccounts_run w userId Hw) as (l & w' & -> & Hu & Hl & Hc).
    exists l. simpl. split; [reflexivity|]. split; [|exact Hc].
    now apply isCopy_intro.
  - intros startDate endDate. now apply getSpendingSummary_frame.
  - destruct (getTotalBalance_run w userId Hw) as (w' & -> & Hu). exact Hu.
  - intros startDate endDate. now apply getIncomeSummary_frame.
  - intros category. now apply getCategorySpending_frame.
  - intros l elements Hl.
    destruct (getTransactions_result w userId filters l Hw Hl) as [[_ Hcopy] _].
    exact (unchanged_intact w _ (Hcopy elements) Hw).
  - intros l elements.
    destruct (getAccounts_run w userId Hw) as (l' & w' & -> & Hu & Hl' & _).
    simpl. intros [= <-].
    apply (unchanged_intact w); [|exact Hw]. now apply unchanged_insert.
Qed.
End EngineFacts.


(** ** [getTotalBalance] *)

Section BalanceClaims.
Local Open Scope Q_scope.

Lemma getTotalBalance_sums (accounts : list Acct.t) :
  getTotalBalance accounts
  = Balance.mk (checkingSum accounts) (Qabs (creditSum accounts))
               (checkingSum accounts + creditSum accounts).
Proof. reflexivity. Qed.

Lemma checkingSum_app (accounts : list Acct.t) (a : Acct.t) :
  checkingSum (accounts ++ [a])
  = if String.eqb (Acct.type a) "checking" || String.eqb (Acct.type a) "depository"
    then checkingSum accounts + balanceOr0 a
    else checkingSum accounts.
Proof.
  unfold checkingSum. rewrite List.filter_app. simpl.
  destruct (_ || _); [apply fold_left_app|now rewrite app_nil_r].
Qed.

Lemma creditSum_app (accounts : list Acct.t) (a : Acct.t) :
  creditSum (accounts ++ [a])
  = if String.eqb (Acct.type a) "credit"
    then creditSum accounts + balanceOr0 a
    else creditSum accounts.
Proof.
  unfold creditSum. rewrite List.filter_app. simpl.
  destruct (String.eqb _ _); [apply fold_left_app|now rewrite app_nil_r].
Qed.

End BalanceClaims.



(** ** Matching a category *)

Section CategoryClaims.
Context {collator : Collator}.

Lemma lowerChar_idem (c : ascii) : lowerChar (lowerChar c) = lowerChar c.
Proof. destruct c as [[] [] [] [] [] [] [] []]; reflexivity. Qed.

Lemma toLowerCase_idem (s : string) : toLowerCase (toLowerCase s) = toLowerCase s.
Proof.
  induction s as [|c s IH]; simpl; [reflexivity|].
  now rewrite lowerChar_idem, IH.
Qed.

Lemma getTransactions_onlyCategory (txs : list Txn.t) (c : string) :
  truthy c = true ->
  getTransactions txs (onlyCategory c)
  = sort byDateDesc
      (List.filter (fun t => String.eqb (Txn.category t) (toLowerCase c)) txs).
Proof.
  intros Hc. unfold getTransactions, applyFilters, criteria, byCategory, onlyCategory.
  simpl. now rewrite Hc.
Qed.

(** C8, amended: only the criterion is folded to lower case, and an
    empty criterion is no criterion. For a non-empty [c],
    [getTransactions] selects the transactions whose stored category is
    exactly [c] in lower case, and [getCategorySpending] those among them
    with a negative amount; so the case of the criterion does not matter,
    and for a stored category that is in lower case (as the twelve of the
    enumeration are) the match is equality up to letter case. *)
Theorem category_match (txs : list Txn.t) (c : string) (t : Txn.t) :
  truthy c = true ->
  (In t (getTransactions txs (onlyCategory c))
   <-> In t txs /\ Txn.category t = toLowerCase c)
  /\ (In t (Report.transactions (getCategorySpending txs c))
      <-> In t txs /\ Txn.category t = toLowerCase c /\ (Txn.amount t < 0)%Q)
  /\ (forall c', truthy c' = true -> toLowerCase c' = toLowerCase c ->
        getTransactions txs (onlyCategory c') = getTransactions txs (onlyCategory c)
        /\ getCategorySpending txs c' = getCategorySpending txs c)
  /\ (Txn.category t = toLowerCase (Txn.category t) ->
      (In t (getTransactions txs (onlyCategory c))
       <-> In t txs /\ toLowerCase (Txn.category t) = toLowerCase c)
      /\ (In t (Report.transactions (getCategorySpending txs c))
          <-> In t txs /\ toLowerCase (Txn.category t) = toLowerCase c
              /\ (Txn.amount t < 0)%Q)).
Proof.
  intros Hc.
  assert (H1 : In t (getTransactions txs (onlyCategory c))
               <-> In t txs /\ Txn.category t = toLowerCase c).
  { rewrite (getTransactions_onlyCategory _ _ Hc), sort_In, filter_In, String.eqb_eq.
    reflexivity. }
  assert (H2 : In t (Report.transactions (getCategorySpending txs c))
               <-> In t txs /\ Txn.category t = toLowerCase c /\ (Txn.amount t < 0)%Q).
  { unfold getCategorySpending, categorySpendingOf. simpl.
    rewrite filter_In, getTransactions_none, sort_In, andb_true_iff,
      String.eqb_eq, Qltb_lt.
    reflexivity. }
  split; [exact H1|]. split; [exact H2|]. split.
  - intros c' Hc' Heq. split.
    + rewrite !getTransactions_onlyCategory by assumption. now rewrite Heq.
    + unfold getCategorySpending, categorySpendingOf. now rewrite Heq.
  - intros Hlow. rewrite H1, H2. split.
    + split; intros [Hin Hcat]; (split; [exact Hin|]).
      * rewrite Hcat. apply toLowerCase_idem.
      * congruence.
    + split; intros (Hin & Hcat & Hneg); (split; [exact Hin|split; [|exact Hneg]]).
      * rewrite Hcat. apply toLowerCase_idem.
      * congruence.
Qed.
End CategoryClaims.

(** C8 as stated fails when the stored category is not in lower case: a
    transaction stored under [Groceries] equals the criterion [groceries]
    up to letter case and is not selected. *)
Lemma category_match_keeps_stored_case :
  let t := Txn.mk "txn_021" "2026-01-31" (-5) "Corner Shop" "Groceries" "Chase Checking" in
  ~ (In t (getTransactions [t] (onlyCategory "groceries"))
     <-> In t [t] /\ toLowerCase (Txn.category t) = toLowerCase "groceries").
Proof.
  intros t [_ H]. assert (Hin : In t (getTransactions [t] (onlyCategory "groceries"))).
  { apply H. split; [now left|reflexivity]. }
  vm_compute in Hin. exact Hin.
Qed.

Lemma category_match_witness :
  truthy "GROCERIES" = true
  /\ (forall t, In t (getTransactions MOCK_TRANSACTIONS (onlyCategory "GROCERIES"))
                <-> In t MOCK_TRANSACTIONS /\ Txn.category t = toLowerCase "GROCERIES").
Proof.
  split; [reflexivity|].
  intros t. exact (proj1 (category_match MOCK_TRANSACTIONS "GROCERIES" t eq_refl)).
Defined.

(** ** Empty results *)

Section EmptyResults.
Context {collator : Collator}.

Lemma filter_none {A : Type} (p : A -> bool) (l : list A) :
  (forall x, In x l -> p x = false) -> List.filter p l = [].
Proof.
  induction l as [|x l IH]; simpl; intros H; [reflexivity|].
  rewrite (H x) by now left. apply IH. intros y Hy. apply H. now right.
Qed.

Lemma filter_sorted_none (p : Txn.t -> bool) (txs : list Txn.t) :
  (forall t, In t txs -> p t = false) ->
  List.filter p (getTransactions txs Filters.none) = [].
Proof.
  intros H. apply filter_none. intros t Ht.
  rewrite getTransactions_none, sort_In in Ht. now apply H.
Qed.

Lemma getSpendingSummary_empty (txs : list Txn.t) (startDate endDate : option string) :
  (forall t, In t txs -> eligibleSpend startDate endDate t = false) ->
  getSpendingSummary txs startDate endDate = ∅.
Proof.
  intros H. unfold getSpendingSummary.
  now rewrite spending_loop_input, (filter_sorted_none _ _ H).
Qed.

Lemma getIncomeSummary_empty (txs : list Txn.t) (startDate endDate : option string) :
  (forall t, In t txs -> eligibleIncome startDate endDate t = false) ->
  getIncomeSummary txs startDate endDate = Report.mk 0%Q 0%nat [].
Proof.
  intros H. unfold getIncomeSummary, incomeSummaryOf.
  rewrite withinDates_filter, filter_filter.
  change (fun x : Txn.t => _) with (eligibleIncome startDate endDate).
  now rewrite (filter_sorted_none (eligibleIncome startDate endDate) _ H).
Qed.

Lemma getCategorySpending_empty (txs : list Txn.t) (category : string) :
  (forall t, In t txs -> isCategorySpend category t = false) ->
  getCategorySpending txs category = Report.mk 0%Q 0%nat [].
Proof.
  intros H. unfold getCategorySpending, categorySpendingOf.
  change (fun t : Txn.t => _) with (isCategorySpend category).
  now rewrite (filter_sorted_none (isCategorySpend category) _ H).
Qed.

(** Every transaction sequence is the resolved sequence of some user:
    cache it under that user's identifier. *)
Lemma every_sequence_resolves (txs : list Txn.t) :
  exists disk userId, resolveTransactions disk userId = Normal txs.
Proof.
  exists (Some {| connections := ∅;
                  transactionCache :=
                    {[ "4815162342" := {| transactions := txs;
                                          cachedAt := "2026-02-01T00:00:00.000Z" |} ]} |}).
  exists (Some "4815162342").
  unfold resolveTransactions, getCachedTransactions, getProp. simpl.
  now rewrite lookup_singleton_eq.
Qed.

(** C9. Whenever the accessor resolves a transaction sequence, and for
    any date bounds and any category string, [getSpendingSummary],
    [getIncomeSummary] and [getCategorySpending] complete normally. With
    no eligible transaction the summary is the empty mapping (total 0 and
    count 0 over its categories) and the two reports are total 0, count 0
    and an empty list; a category outside the enumeration yields that
    empty report. *)
Theorem aggregates_complete (w : Store.World) (userId : option string) (txs : list Txn.t)
    (startDate endDate : option string) (category : string) :
  intact w ->
  resolveTransactions (Store.disk w) userId = Normal txs ->
  (fst (Store.getSpendingSummary userId startDate endDate w)
     = Normal (getSpendingSummary txs startDate endDate)
   /\ fst (Store.getIncomeSummary userId startDate endDate w)
      = Normal (getIncomeSummary txs startDate endDate)
   /\ fst (Store.getCategorySpending userId category w)
      = Normal (getCategorySpending txs category))
  /\ ((forall t, In t txs -> eligibleSpend startDate endDate t = false) ->
      getSpendingSummary txs startDate endDate = ∅
      /\ sumTotals (getSpendingSummary txs startDate endDate) = 0%Q
      /\ sumCounts (getSpendingSummary txs startDate endDate) = 0%nat)
  /\ ((forall t, In t txs -> eligibleIncome startDate endDate t = false) ->
      getIncomeSummary txs startDate endDate = Report.mk 0%Q 0%nat [])
  /\ ((forall t, In t txs -> isCategorySpend category t = false) ->
      getCategorySpending txs category = Report.mk 0%Q 0%nat [])
  /\ ((forall t, In t txs -> In (Txn.category t) CATEGORIES) ->
      ~ In (toLowerCase category) CATEGORIES ->
      getCategorySpending txs category = Report.mk 0%Q 0%nat []).
Proof.
  intros Hw Hres.
  split; [split; [|split]|split; [|split; [|split]]].
  - pose proof (getSpendingSummary_run w userId startDate endDate Hw) as Hg.
    rewrite Hres in Hg. destruct Hg as (w' & -> & _). reflexivity.
  - pose proof (getIncomeSummary_run w userId startDate endDate Hw) as Hg.
    rewrite Hres in Hg. destruct Hg as (w' & -> & _). reflexivity.
  - pose proof (getCategorySpending_run w userId category Hw) as Hg.
    rewrite Hres in Hg. destruct Hg as (w' & -> & _). reflexivity.
  - intros H. rewrite (getSpendingSummary_empty _ _ _ H).
    split; [reflexivity|]. split; [apply sumTotals_empty|apply sumCounts_empty].
  - apply getIncomeSummary_empty.
  - apply getCategorySpending_empty.
  - intros Hcats Hc. apply getCategorySpending_empty. intros t Ht.
    unfold isCategorySpend. apply andb_false_iff. left.
    apply String.eqb_neq. intros Heq. apply Hc. rewrite <- Heq. now apply Hcats.
Qed.
End EmptyResults.

(** The world right after the module is loaded is intact. *)
Lemma loaded_intact (disk : option FileData) : intact (Store.loaded disk).
Proof.
  split.
  - exists (combine Store.MOCK_TRANSACTION_objects MOCK_TRANSACTIONS).
    split; [reflexivity|]. split; [reflexivity|].
    repeat (constructor; [reflexivity|]). constructor.
  - exists (combine Store.MOCK_ACCOUNT_objects MOCK_ACCOUNTS).
    split; [reflexivity|]. split; [reflexivity|].
    repeat (constructor; [reflexivity|]). constructor.
Qed.

(** The copies are shallow. The array [getTransactions] returns for the
    canned fallback holds the very objects of [MOCK_TRANSACTIONS], so a
    write to a field of one of them, unlike a write to the array, shows in
    the canned dataset. *)
Lemma canned_objects_are_shared :
  let w' := snd (Store.getTransactions None Filters.none (Store.loaded None)) in
  exists l rs,
    fst (Store.getTransactions None Filters.none (Store.loaded None)) = Normal l
    /\ Store.heap w' !! l = Some (Store.ArrayOf rs)
    /\ Permutation rs Store.MOCK_TRANSACTION_objects
    /\ hd l rs = 20%positive
    /\ ~ intact (snd (Store.overwrite 20
                        (Store.TxnObject
                           (Txn.mk "txn_020" "2026-01-30" 0 "Lyft" "transport" "Amex Platinum"))
                        w')).
Proof.
  intros w'. exists 25%positive.
  eexists. split; [reflexivity|]. split; [vm_compute; reflexivity|].
  split; [|split; [reflexivity|]].
  - change Store.MOCK_TRANSACTION_objects
      with (rev [20; 19; 18; 17; 16; 15; 14; 13; 12; 11; 10; 9; 8; 7; 6; 5; 4; 3; 2; 1]%positive).
    rewrite <- Permutation_rev.
    do 11 apply perm_skip. apply perm_swap.
  - intros [(es & Harr & Hsnd & Hpt) _].
    assert (Hfst : map fst es = Store.MOCK_TRANSACTION_objects).
    { assert (Heq : Some (Store.ArrayOf (map fst es))
                    = Some (Store.ArrayOf Store.MOCK_TRANSACTION_objects))
        by (rewrite <- Harr; vm_compute; reflexivity).
      now injection Heq. }
    rewrite <- (combine_fst_snd es), Hfst, Hsnd in Hpt.
    assert (Hin : In (20%positive, Txn.mk "txn_020" "2026-01-30" (-28.00) "Lyft" "transport"
                                     "Amex Platinum")
                     (combine Store.MOCK_TRANSACTION_objects MOCK_TRANSACTIONS)).
    { simpl. do 19 right. now left. }
    pose proof (proj1 (List.Forall_forall _ _) Hpt _ Hin) as H20.
    vm_compute in H20. discriminate.
Qed.

Lemma aggregates_complete_witness :
  intact (Store.loaded None)
  /\ resolveTransactions (Store.disk (Store.loaded None)) None = Normal MOCK_TRANSACTIONS
  /\ fst (Store.getSpendingSummary None None None (Store.loaded None))
     = Normal (getSpendingSummary MOCK_TRANSACTIONS None None)
  /\ getCategorySpending MOCK_TRANSACTIONS "Crypto" = Report.mk 0%Q 0%nat [].
Proof.
  pose proof (loaded_intact None) as Hw.
  assert (Hres : resolveTransactions (Store.disk (Store.loaded None)) None
                 = Normal MOCK_TRANSACTIONS) by reflexivity.
  pose proof (aggregates_complete (Store.loaded None) None MOCK_TRANSACTIONS None None
                "Crypto" Hw Hres) as ((Hs & _) & _ & _ & _ & Hunknown).
  split; [exact Hw|]. split; [exact Hres|]. split; [exact Hs|].
  apply Hunknown.
  - intros t Ht. simpl in Ht.
    repeat (destruct Ht as [<-|Ht]; [simpl; tauto|]). contradiction.
  - simpl. intros H. repeat (destruct H as [H|H]; [discriminate|]). exact H.
Defined.

Lemma accessors_return_copies_witness :
  intact (Store.loaded None)
  /\ unchanged (Store.loaded None)
       (snd (Store.getTransactions None Filters.none (Store.loaded None)))
  /\ forall l, fst (Store.getTransactions None Filters.none (Store.loaded None)) = Normal l ->
       isCopy (Store.loaded None)
         (snd (Store.getTransactions None Filters.none (Store.loaded None))) l.
Proof.
  pose proof (loaded_intact None) as Hw.
  pose proof (accessors_return_copies (Store.loaded None) None Filters.none Hw)
    as ((Hu & Hcopy) & _).
  split; [exact Hw|]. split; [exact Hu|].
  intros l Hl. exact (proj1 (Hcopy l Hl)).
Defined.

(** ** The canned dataset *)




(** The other scenarios of the canned dataset. *)

Example canned_entertainment :
  map Txn.id (Report.transactions (getCategorySpending MOCK_TRANSACTIONS "entertainment"))
  = ["txn_008"; "txn_009"]
  /\ (Report.total (getCategorySpending MOCK_TRANSACTIONS "entertainment") == 40.99)%Q
  /\ Report.count (getCategorySpending MOCK_TRANSACTIONS "entertainment") = 2%nat.
Proof. repeat split; vm_compute; reflexivity. Qed.

Example canned_balance :
  (Balance.checking (getTotalBalance MOCK_ACCOUNTS) == 4250.33)%Q
  /\ (Balance.creditOwed (getTotalBalance MOCK_ACCOUNTS) == 892.48)%Q
  /\ (Balance.netWorth (getTotalBalance MOCK_ACCOUNTS) == 3357.85)%Q.
Proof. repeat split; vm_compute; reflexivity. Qed.

Example canned_minAmount_zero :
  map Txn.id (getTransactions MOCK_TRANSACTIONS
                (Filters.mk None None None None (Some 0%Q) None None None))
  = ["txn_018"; "txn_012"; "txn_003"].
Proof. vm_compute. reflexivity. Qed.

Example canned_recent_three :
  map Txn.id (getTransactions MOCK_TRANSACTIONS (Filters.withLimit Filters.none (Some 3%Z)))
  = ["txn_020"; "txn_019"; "txn_018"].
Proof. vm_compute. reflexivity. Qed.

Example canned_summary_keys :
  size (getSpendingSummary MOCK_TRANSACTIONS None None) = 9%nat
  /\ forallb (fun k => bool_decide (is_Some (getSpendingSummary MOCK_TRANSACTIONS None None !! k)))
       ["groceries"; "food"; "shopping"; "transport"; "utilities"; "entertainment";
        "health"; "housing"; "travel"] = true.
Proof. split; vm_compute; reflexivity. Qed.

(** * Further properties *)

(** ** Reading and writing properties of an object *)

Section PropFacts.
Context {A : Type}.

Lemma setProp_proto (o : gmap string A) (v : A) :
  o !! "__proto__" = None -> setProp o "__proto__" v = o.
Proof. intros H. unfold setProp. now rewrite H. Qed.

Lemma setProp_insert (o : gmap string A) (k : string) (v : A) :
  k <> "__proto__" -> setProp o k v = <[k := v]> o.
Proof.
  intros Hk. unfold setProp. apply String.eqb_neq in Hk. rewrite Hk.
  now destruct (o !! k).
Qed.

Lemma setProp_own (o : gmap string A) (k : string) (v0 v : A) :
  o !! k = Some v0 -> setProp o k v = <[k := v]> o.
Proof. intros H. unfold setProp. now rewrite H. Qed.

Lemma getProp_setProp_eq (o : gmap string A) (k : string) (v : A) :
  k <> "__proto__" -> getProp (setProp o k v) k = Own v.
Proof.
  intros Hk. rewrite (setProp_insert _ _ _ Hk). unfold getProp.
  now rewrite lookup_insert_eq.
Qed.

Lemma getProp_setProp_ne (o : gmap string A) (k k' : string) (v : A) :
  k <> k' -> getProp (setProp o k v) k' = getProp o k'.
Proof.
  intros Hk. unfold setProp, getProp.
  destruct (o !! k), (String.eqb k "__proto__"); try reflexivity;
    now rewrite lookup_insert_ne.
Qed.

Lemma getProp_delete_ne (o : gmap string A) (k k' : string) :
  k <> k' -> getProp (delete k o) k' = getProp o k'.
Proof. intros Hk. unfold getProp. now rewrite lookup_delete_ne. Qed.

Lemma setProp_setProp (o : gmap string A) (k : string) (v v' : A) :
  setProp (setProp o k v) k v' = setProp o k v'.
Proof.
  destruct (o !! k) as [v0|] eqn:H.
  - rewrite (setProp_own _ _ _ v H), (setProp_own _ _ _ v' H).
    rewrite (setProp_own _ _ v v') by apply lookup_insert_eq.
    apply insert_insert_eq.
  - destruct (String.eqb_spec k "__proto__") as [->|Hk].
    + now rewrite (setProp_proto _ v H).
    + rewrite !setProp_insert by exact Hk. apply insert_insert_eq.
Qed.

Lemma inherited_proto : isInherited "__proto__" = true.
Proof. reflexivity. Qed.

Lemma not_inherited_not_proto (k : string) : isInherited k = false -> k <> "__proto__".
Proof. intros H ->. discriminate. Qed.
End PropFacts.

(** ** Caching transactions and saving a connection *)

Section WriterFacts.
Context {collator : Collator}.

Lemma getUserConnection_saved (disk : option File) (userId : string)
    (connection : Connection) :
  userId <> "__proto__" ->
  getUserConnection (storedData (saveUserConnection true disk userId connection)) userId
  = Own connection.
Proof.
  intros Hp. unfold saveUserConnection, getUserConnection. simpl.
  now apply getProp_setProp_eq.
Qed.

(** X1. Caching a sequence and resolving it again gives it back: once
    [cacheTransactions] has written for a non-empty user identifier other
    than [__proto__], that user's transactions resolve to the cached
    sequence, the empty one included (no fall-back to the canned dataset),
    and [getTransactions] computes from it. *)
Theorem cache_then_resolve (now : string) (disk : option File) (userId : string)
    (txs : list Txn.t) (filters : Filters.t) :
  truthy userId = true -> userId <> "__proto__" ->
  let disk' := storedData (cacheTransactions true now disk userId txs) in
  getCachedTransactions disk' userId = Own {| transactions := txs; cachedAt := now |}
  /\ resolveTransactions disk' (Some userId) = Normal txs
  /\ exists l w',
       Store.getTransactions (Some userId) filters (Store.loaded disk') = (Normal l, w')
       /\ holdsTxns w' l (getTransactions txs filters).
Proof.
  intros Hu Hp disk'.
  assert (Hc : getCachedTransactions disk' userId
               = Own {| transactions := txs; cachedAt := now |}).
  { unfold disk', cacheTransactions, getCachedTransactions. simpl.
    now apply getProp_setProp_eq. }
  assert (Hr : resolveTransactions disk' (Some userId) = Normal txs).
  { unfold resolveTransactions, ifTruthy. now rewrite Hu, Hc. }
  split; [exact Hc|]. split; [exact Hr|].
  pose proof (getTransactions_run (Store.loaded disk') (Some userId) filters
                (loaded_intact disk')) as Hrun.
  simpl Store.disk in Hrun. rewrite Hr in Hrun.
  destruct Hrun as (l & w' & Hrun & _ & _ & Hh). now exists l, w'.
Qed.

(** X2. [cacheTransactions] touches one entry: the cached transactions of
    every other user, all connections, the accounts every user resolves to
    and every chat history are as before, whether or not the write went
    through. *)
Theorem cacheTransactions_frame (written : bool) (now : string) (disk : option File)
    (userId : string) (txs : list Txn.t) (other : string) :
  let disk' := cacheTransactions written now disk userId txs in
  (other <> userId ->
   getCachedTransactions (storedData disk') other
   = getCachedTransactions (storedData disk) other)
  /\ (other <> userId ->
      resolveTransactions (storedData disk') (Some other)
      = resolveTransactions (storedData disk) (Some other))
  /\ getUserConnection (storedData disk') other = getUserConnection (storedData disk) other
  /\ hasPlaidConnection disk' other = hasPlaidConnection disk other
  /\ resolveAccounts (storedData disk') (Some other)
     = resolveAccounts (storedData disk) (Some other)
  /\ getChatHistory disk' other = getChatHistory disk other.
Proof.
  intros disk'.
  assert (Hcache : other <> userId ->
                   getCachedTransactions (storedData disk') other
                   = getCachedTransactions (storedData disk) other).
  { intros Hne. unfold disk', cacheTransactions, getCachedTransactions.
    destruct written, disk as [data|]; simpl; try reflexivity;
      apply getProp_setProp_ne; congruence. }
  assert (Hconn : getUserConnection (storedData disk') other
                  = getUserConnection (storedData disk) other).
  { unfold disk', cacheTransactions, getUserConnection.
    now destruct written, disk as [data|]. }
  split; [exact Hcache|]. split; [|split; [exact Hconn|split; [|split]]].
  - intros Hne. unfold resolveTransactions, ifTruthy.
    destruct (truthy other); [|reflexivity]. now rewrite Hcache.
  - unfold hasPlaidConnection. now rewrite Hconn.
  - unfold resolveAccounts, ifTruthy.
    destruct (truthy other); [|reflexivity]. now rewrite Hconn.
  - unfold disk', cacheTransactions, getChatHistory.
    now destruct written, disk as [data|].
Qed.

(** X3. A saved connection is found again: after [saveUserConnection] has
    written for a user identifier other than [__proto__],
    [getUserConnection] returns that connection, [hasPlaidConnection] is
    true and, for a non-empty identifier, [getAccounts] resolves to the
    connection's accounts (to the canned accounts when it carries none). *)
Theorem saveUserConnection_then_read (disk : option File) (userId : string)
    (connection : Connection) :
  userId <> "__proto__" ->
  let disk' := saveUserConnection true disk userId connection in
  getUserConnection (storedData disk') userId = Own connection
  /\ hasPlaidConnection disk' userId = true
  /\ (truthy userId = true ->
      resolveAccounts (storedData disk') (Some userId)
      = match accounts connection with
        | Some accounts => accounts
        | None => MOCK_ACCOUNTS
        end).
Proof.
  intros Hp disk'.
  pose proof (getUserConnection_saved disk userId connection Hp) as Hc.
  fold disk' in Hc.
  split; [exact Hc|]. split.
  - unfold hasPlaidConnection. now rewrite Hc.
  - intros Hu. unfold resolveAccounts, ifTruthy. now rewrite Hu, Hc.
Qed.

(** X4. A connection alone does not change where transactions come from:
    [saveUserConnection] leaves the cached transactions and the resolved
    transaction sequence of every user, every chat history and the
    connection of every other user as before. A user who has a connection
    and no cache is still served the canned transactions. *)
Theorem saveUserConnection_frame (written : bool) (disk : option File) (userId : string)
    (connection : Connection) (other : string) :
  let disk' := saveUserConnection written disk userId connection in
  getCachedTransactions (storedData disk') other
  = getCachedTransactions (storedData disk) other
  /\ resolveTransactions (storedData disk') (Some other)
     = resolveTransactions (storedData disk) (Some other)
  /\ getChatHistory disk' other = getChatHistory disk other
  /\ (other <> userId ->
      getUserConnection (storedData disk') other = getUserConnection (storedData disk) other)
  /\ (isInherited userId = false ->
      getCachedTransactions (storedData disk) userId = Missing ->
      hasPlaidConnection (saveUserConnection true disk userId connection) userId = true
      /\ resolveTransactions
           (storedData (saveUserConnection true disk userId connection)) (Some userId)
         = Normal MOCK_TRANSACTIONS).
Proof.
  intros disk'.
  assert (Hcache : forall w,
            getCachedTransactions (storedData (saveUserConnection w disk userId connection)) other
            = getCachedTransactions (storedData disk) other).
  { intros w. unfold saveUserConnection, getCachedTransactions.
    now destruct w, disk as [data|]. }
  split; [apply Hcache|]. split; [|split; [|split]].
  - unfold resolveTransactions, ifTruthy.
    destruct (truthy other); [|reflexivity]. unfold disk'. now rewrite Hcache.
  - unfold disk', saveUserConnection, getChatHistory.
    now destruct written, disk as [data|].
  - intros Hne. unfold disk', saveUserConnection, getUserConnection.
    destruct written, disk as [data|]; simpl; try reflexivity;
      apply getProp_setProp_ne; congruence.
  - intros Hi Hmiss. split.
    + unfold hasPlaidConnection.
      now rewrite getUserConnection_saved by now apply not_inherited_not_proto.
    + unfold resolveTransactions, ifTruthy.
      assert (Hsame : getCachedTransactions
                        (storedData (saveUserConnection true disk userId connection)) userId
                      = Missing).
      { rewrite <- Hmiss. unfold saveUserConnection, getCachedTransactions.
        now destruct disk as [data|]. }
      destruct (truthy userId); [now rewrite Hsame|reflexivity].
Qed.

(** X5. The last write wins: caching again for the same user replaces the
    cached sequence, it does not add to it, and saving a connection again
    replaces the connection. *)
Theorem writes_replace (now1 now2 : string) (disk : option File) (userId : string)
    (txs1 txs2 : list Txn.t) (c1 c2 : Connection) :
  cacheTransactions true now2 (cacheTransactions true now1 disk userId txs1) userId txs2
  = cacheTransactions true now2 disk userId txs2
  /\ saveUserConnection true (saveUserConnection true disk userId c1) userId c2
     = saveUserConnection true disk userId c2.
Proof.
  unfold cacheTransactions, saveUserConnection. simpl.
  now rewrite !setProp_setProp.
Qed.
End WriterFacts.

Lemma cache_then_resolve_witness :
  truthy "4815162342" = true /\ "4815162342" <> "__proto__"
  /\ resolveTransactions
       (storedData (cacheTransactions true "2026-02-01T00:00:00.000Z" None "4815162342" []))
       (Some "4815162342")
     = Normal [].
Proof.
  assert (H1 : truthy "4815162342" = true) by reflexivity.
  assert (H2 : "4815162342" <> "__proto__") by discriminate.
  split; [exact H1|]. split; [exact H2|].
  exact (proj1 (proj2 (cache_then_resolve "2026-02-01T00:00:00.000Z" None "4815162342" []
                         Filters.none H1 H2))).
Defined.

Lemma cacheTransactions_frame_witness :
  "16" <> "4815162342"
  /\ getCachedTransactions
       (storedData (cacheTransactions true "2026-02-01T00:00:00.000Z" None "4815162342"
                      MOCK_TRANSACTIONS)) "16"
     = getCachedTransactions (storedData None) "16".
Proof.
  assert (H : "16" <> "4815162342") by discriminate.
  split; [exact H|].
  exact (proj1 (cacheTransactions_frame true "2026-02-01T00:00:00.000Z" None "4815162342"
                  MOCK_TRANSACTIONS "16") H).
Defined.

Lemma saveUserConnection_then_read_witness :
  "4815162342" <> "__proto__"
  /\ hasPlaidConnection
       (saveUserConnection true None "4815162342"
          {| accessToken := "access-sandbox"; itemId := "item-1";
             accounts := Some MOCK_ACCOUNTS; connectedAt := "2026-02-01T00:00:00.000Z" |})
       "4815162342" = true.
Proof.
  assert (H : "4815162342" <> "__proto__") by discriminate.
  split; [exact H|].
  exact (proj1 (proj2 (saveUserConnection_then_read None "4815162342" _ H))).
Defined.

Lemma saveUserConnection_frame_witness :
  isInherited "4815162342" = false
  /\ getCachedTransactions (storedData None) "4815162342" = Missing
  /\ resolveTransactions
       (storedData
          (saveUserConnection true None "4815162342"
             {| accessToken := "access-sandbox"; itemId := "item-1";
                accounts := Some MOCK_ACCOUNTS; connectedAt := "2026-02-01T00:00:00.000Z" |}))
       (Some "4815162342")
     = Normal MOCK_TRANSACTIONS.
Proof.
  assert (H1 : isInherited "4815162342" = false) by reflexivity.
  assert (H2 : getCachedTransactions (storedData None) "4815162342" = Missing) by reflexivity.
  split; [exact H1|]. split; [exact H2|].
  pose proof (saveUserConnection_frame true None "4815162342"
                {| accessToken := "access-sandbox"; itemId := "item-1";
                   accounts := Some MOCK_ACCOUNTS;
                   connectedAt := "2026-02-01T00:00:00.000Z" |} "4815162342")
    as (_ & _ & _ & _ & H).
  exact (proj2 (H H1 H2)).
Defined.

(** ** The chat history *)

Section ChatFacts.
Local Open Scope list_scope.

Lemma lastMessages_short (n : nat) (history : list Chat.t) :
  (length history <= n)%nat -> lastMessages n history = history.
Proof.
  intros H. unfold lastMessages.
  now replace (length history - n)%nat with 0%nat by lia.
Qed.

Lemma lastMessages_length (n : nat) (history : list Chat.t) :
  length (lastMessages n history) = Nat.min (length history) n.
Proof. unfold lastMessages. rewrite length_skipn. lia. Qed.

Lemma lastMessages_app (n : nat) (history : list Chat.t) (m : Chat.t) :
  (1 <= n)%nat ->
  lastMessages n (lastMessages n history ++ [m]) = lastMessages n (history ++ [m]).
Proof.
  intros Hn. unfold lastMessages.
  rewrite !length_app, length_skipn. simpl.
  destruct (Nat.le_gt_cases (length history) n) as [Hle|Hgt].
  - replace (length history - n)%nat with 0%nat by lia. simpl.
    now replace (length history - 0)%nat with (length history) by lia.
  - replace (length history - (length history - n) + 1 - n)%nat with 1%nat by lia.
    replace (length history + 1 - n)%nat with (S (length history - n)) by lia.
    rewrite !skipn_app.
    replace (1 - length (skipn (length history - n) history))%nat with 0%nat
      by (rewrite length_skipn; lia).
    replace (S (length history - n) - length history)%nat with 0%nat by lia.
    simpl. f_equal.
    change 1%nat with (0 + 1)%nat. rewrite <- (Nat.add_1_r (length history - n)).
    simpl. now rewrite Nat.add_comm, <- skipn_skipn.
Qed.

Lemma lastMessages_last (n : nat) (history : list Chat.t) (m : Chat.t) :
  (1 <= n)%nat -> List.last (lastMessages n (history ++ [m])) m = m.
Proof.
  intros Hn. unfold lastMessages. rewrite length_app. simpl.
  rewrite skipn_app.
  replace (length history + 1 - n - length history)%nat with 0%nat by lia.
  simpl. apply List.last_last.
Qed.

Lemma wholeTurns_app (history : list Chat.t) (u a : Chat.t) :
  wholeTurns history -> Chat.role u = "user" -> Chat.role a = "assistant" ->
  wholeTurns (history ++ [u; a]).
Proof.
  intros Hh Hu Ha. induction Hh as [|u' a' history Hu' Ha' _ IH]; simpl.
  - constructor; [assumption..|constructor].
  - now constructor.
Qed.

Lemma wholeTurns_even (history : list Chat.t) :
  wholeTurns history -> exists k, length history = (2 * k)%nat.
Proof.
  induction 1 as [|u a history _ _ _ [k Hk]].
  - now exists 0%nat.
  - exists (S k). simpl. lia.
Qed.

Lemma wholeTurns_skipn (history : list Chat.t) (k : nat) :
  wholeTurns history -> wholeTurns (skipn (2 * k) history).
Proof.
  intros Hh. revert k. induction Hh as [|u a history Hu Ha Hh IH]; intros k.
  - rewrite skipn_nil. constructor.
  - destruct k as [|k]; [now constructor|].
    replace (2 * S k)%nat with (S (S (2 * k))) by lia. simpl. apply IH.
Qed.

(** What [appendChatHistory] writes when the user identifier names no
    member of [Object.prototype]. *)
Lemma appendChatHistory_written (now : string) (disk : option File)
    (userId role content : string) :
  isInherited userId = false ->
  exists old,
    getChatHistory disk userId = Messages old
    /\ appendChatHistory true now disk userId role content
       = Normal (Some {| stored := stored (loadFile disk);
                         chatHistory :=
                           Some (<[userId := lastMessages 20
                                               (old ++ [Chat.mk role content now])]>
                                   (chatsOf (loadFile disk))) |}).
Proof.
  intros Hi. pose proof (not_inherited_not_proto _ Hi) as Hp.
  unfold getChatHistory, appendChatHistory, getProp. rewrite Hi.
  set (chats := chatsOf (loadFile disk)).
  assert (Hgoal : forall old : list Chat.t,
    Normal
      (saveConnections true disk
         {| stored := stored (loadFile disk);
            chatHistory :=
              Some (if (20 <? length (old ++ [Chat.mk role content now]))%nat
                    then setProp (<[userId := old ++ [Chat.mk role content now]]> chats)
                           userId (lastMessages 20 (old ++ [Chat.mk role content now]))
                    else <[userId := old ++ [Chat.mk role content now]]> chats) |})
    = Normal (Some {| stored := stored (loadFile disk);
                      chatHistory :=
                        Some (<[userId := lastMessages 20
                                            (old ++ [Chat.mk role content now])]> chats) |})).
  { intros old. simpl.
    destruct (Nat.ltb_spec 20 (length (old ++ [Chat.mk role content now]))) as [Hlt|Hle].
    - now rewrite (setProp_insert _ _ _ Hp), insert_insert_eq.
    - now rewrite lastMessages_short. }
  destruct (chats !! userId) as [old|].
  - exists old. split; [reflexivity|]. apply Hgoal.
  - exists []. split; [reflexivity|]. apply (Hgoal []).
Qed.

Lemma appendChatHistory_history (now : string) (disk : option File)
    (userId role content : string) :
  isInherited userId = false ->
  exists old disk',
    getChatHistory disk userId = Messages old
    /\ appendChatHistory true now disk userId role content = Normal disk'
    /\ getChatHistory disk' userId
       = Messages (lastMessages 20 (old ++ [Chat.mk role content now])).
Proof.
  intros Hi. destruct (appendChatHistory_written now disk userId role content Hi)
    as (old & Hold & Hrun).
  exists old. eexists. split; [exact Hold|]. split; [exact Hrun|].
  unfold getChatHistory, getProp, chatsOf, loadFile. cbn [chatHistory].
  now rewrite lookup_insert_eq.
Qed.

(** X6. The history is the last 20 messages: after [appendChatHistory]
    has written for a user identifier that names no member of
    [Object.prototype], that user's history is the old history followed
    by the new message, cut to its last 20 entries; it ends with the new
    message and is never longer than 20. *)
Theorem appendChatHistory_keeps_last_20 (now : string) (disk : option File)
    (userId role content : string) :
  isInherited userId = false ->
  exists old disk',
    getChatHistory disk userId = Messages old
    /\ appendChatHistory true now disk userId role content = Normal disk'
    /\ getChatHistory disk' userId
       = Messages (lastMessages 20 (old ++ [Chat.mk role content now]))
    /\ length (lastMessages 20 (old ++ [Chat.mk role content now]))
       = Nat.min (S (length old)) 20
    /\ List.last (lastMessages 20 (old ++ [Chat.mk role content now]))
         (Chat.mk role content now) = Chat.mk role content now
    /\ ((length old < 20)%nat ->
        lastMessages 20 (old ++ [Chat.mk role content now])
        = old ++ [Chat.mk role content now]).
Proof.
  intros Hi. destruct (appendChatHistory_history now disk userId role content Hi)
    as (old & disk' & Hold & Hrun & Hnew).
  exists old, disk'. split; [exact Hold|]. split; [exact Hrun|].
  split; [exact Hnew|split; [|split]].
  - rewrite lastMessages_length, length_app. simpl. lia.
  - apply lastMessages_last. lia.
  - intros Hlt. apply lastMessages_short. rewrite length_app. simpl. lia.
Qed.

(** X7. [appendChatHistory] throws exactly when the user identifier
    names a member of [Object.prototype] and has no history of its own;
    otherwise it leaves the history of every other user, the connections
    and the cached transactions as they were. *)
Theorem appendChatHistory_frame (written : bool) (now : string) (disk : option File)
    (userId role content : string) :
  (appendChatHistory written now disk userId role content = TypeError
   <-> getChatHistory disk userId = PrototypeMember)
  /\ forall disk',
       appendChatHistory written now disk userId role content = Normal disk' ->
       loadConnections (storedData disk') = loadConnections (storedData disk)
       /\ forall other, other <> userId ->
            getChatHistory disk' other = getChatHistory disk other.
Proof.
  unfold appendChatHistory, getChatHistory.
  set (chats := chatsOf (loadFile disk)).
  assert (Hother : forall (history trimmed : list Chat.t) (b : bool) other,
            other <> userId ->
            getProp (if b then setProp (<[userId := history]> chats) userId trimmed
                     else <[userId := history]> chats) other
            = getProp chats other).
  { intros history trimmed b other Hne.
    destruct b; rewrite ?getProp_setProp_ne by congruence;
      unfold getProp; now rewrite lookup_insert_ne by congruence. }
  destruct (getProp chats userId) as [old| |] eqn:Hslot.
  - split; [split; discriminate|].
    intros disk' [= <-]. destruct written; unfold saveConnections.
    + split; [now destruct disk|].
      intros other Hne. unfold chatsOf at 1, loadFile at 1. cbn [chatHistory].
      now rewrite Hother.
    + split; reflexivity.
  - split; [split; reflexivity|]. discriminate.
  - split; [split; discriminate|].
    intros disk' [= <-]. destruct written; unfold saveConnections.
    + split; [now destruct disk|].
      intros other Hne. unfold chatsOf at 1, loadFile at 1. cbn [chatHistory].
      pose proof (Hother [Chat.mk role content now] [] false other Hne) as Hfalse.
      cbv iota in Hfalse. now rewrite Hfalse.
    + split; reflexivity.
Qed.

(** X8. [clearChatHistory] empties one history: afterwards the user (one
    whose identifier names no member of [Object.prototype]) has no
    messages, every other user's history, the connections and the cached
    transactions are as before, and clearing again changes nothing. *)
Theorem clearChatHistory_clears (disk : option File) (userId : string) :
  (isInherited userId = false ->
   getChatHistory (clearChatHistory true disk userId) userId = Messages [])
  /\ (forall written other, other <> userId ->
        getChatHistory (clearChatHistory written disk userId) other
        = getChatHistory disk other)
  /\ (forall written,
        loadConnections (storedData (clearChatHistory written disk userId))
        = loadConnections (storedData disk))
  /\ clearChatHistory true (clearChatHistory true disk userId) userId
     = clearChatHistory true disk userId.
Proof.
  assert (Hsaved : forall (data : FileData) chats other,
            getChatHistory (Some {| stored := data; chatHistory := Some chats |}) other
            = match getProp chats other with
              | Own history => Messages history
              | Inherited => PrototypeMember
              | Missing => Messages []
              end) by reflexivity.
  assert (Hloaded : forall chats other,
            chatHistory (loadFile disk) = Some chats ->
            getChatHistory disk other
            = match getProp chats other with
              | Own history => Messages history
              | Inherited => PrototypeMember
              | Missing => Messages []
              end).
  { intros chats other H. unfold getChatHistory, chatsOf. now rewrite H. }
  split; [|split; [|split]].
  - intros Hi. unfold clearChatHistory.
    destruct (chatHistory (loadFile disk)) as [chats|] eqn:Hchats.
    + destruct (getProp chats userId) eqn:Hslot; unfold saveConnections.
      * rewrite Hsaved. unfold getProp. now rewrite lookup_delete_eq, Hi.
      * rewrite Hsaved. unfold getProp. now rewrite lookup_delete_eq, Hi.
      * now rewrite (Hloaded chats userId eq_refl), Hslot.
    + unfold getChatHistory, chatsOf, getProp. now rewrite Hchats, lookup_empty, Hi.
  - intros written other Hne. unfold clearChatHistory.
    destruct (chatHistory (loadFile disk)) as [chats|] eqn:Hchats; [|reflexivity].
    destruct (getProp chats userId), written; try reflexivity;
      unfold saveConnections; rewrite Hsaved, (Hloaded chats other eq_refl);
      now rewrite getProp_delete_ne by congruence.
  - intros written. unfold clearChatHistory.
    destruct (chatHistory (loadFile disk)) as [chats|]; [|reflexivity].
    destruct (getProp chats userId), written; try reflexivity; now destruct disk.
  - assert (Hagain : forall (data : FileData) chats,
              clearChatHistory true
                (Some {| stored := data; chatHistory := Some (delete userId chats) |}) userId
              = Some {| stored := data; chatHistory := Some (delete userId chats) |}).
    { intros data chats. unfold clearChatHistory, loadFile. cbn [chatHistory stored].
      unfold getProp. rewrite lookup_delete_eq.
      destruct (isInherited userId); [|reflexivity].
      unfold saveConnections. now rewrite delete_delete_eq. }
    destruct (chatHistory (loadFile disk)) as [chats|] eqn:Hchats.
    + destruct (getProp chats userId) eqn:Hslot.
      * assert (Hclear : clearChatHistory true disk userId
                         = Some {| stored := stored (loadFile disk);
                                   chatHistory := Some (delete userId chats) |}).
        { unfold clearChatHistory. now rewrite Hchats, Hslot. }
        rewrite Hclear. apply Hagain.
      * assert (Hclear : clearChatHistory true disk userId
                         = Some {| stored := stored (loadFile disk);
                                   chatHistory := Some (delete userId chats) |}).
        { unfold clearChatHistory. now rewrite Hchats, Hslot. }
        rewrite Hclear. apply Hagain.
      * assert (Hclear : clearChatHistory true disk userId = disk).
        { unfold clearChatHistory. now rewrite Hchats, Hslot. }
        now rewrite !Hclear.
    + assert (Hclear : clearChatHistory true disk userId = disk).
      { unfold clearChatHistory. now rewrite Hchats. }
      now rewrite !Hclear.
Qed.
(** X9. Saved turns stay whole: when the stored history of a user is made
    of whole turns (a user message, then the answer), the history after
    [processMessage] has saved a turn is the old one followed by the
    message and the answer, cut to its last 20 entries, so it is again made
    of whole turns, at most ten of them. An empty result of the agent is
    saved as the stock answer. *)
Theorem recordTurn_whole_turns (now1 now2 : string) (disk : option File)
    (userId userMessage result : string) :
  isInherited userId = false ->
  wholeTurns (messagesOf (getChatHistory disk userId)) ->
  let old := messagesOf (getChatHistory disk userId) in
  let u := Chat.mk "user" userMessage now1 in
  let a := Chat.mk "assistant"
             (if truthy result then result else "I processed your request.") now2 in
  exists disk',
    recordTurn true true now1 now2 disk userId userMessage result = Normal disk'
    /\ getChatHistory disk' userId = Messages (lastMessages 20 (old ++ [u; a]))
    /\ wholeTurns (lastMessages 20 (old ++ [u; a]))
    /\ (length (lastMessages 20 (old ++ [u; a])) <= 20)%nat.
Proof.
  intros Hi Hwhole old u a.
  destruct (appendChatHistory_history now1 disk userId "user" userMessage Hi)
    as (old0 & disk1 & Hold0 & Hrun1 & Hnew1).
  destruct (appendChatHistory_history now2 disk1 userId "assistant"
              (if truthy result then result else "I processed your request.") Hi)
    as (old1 & disk2 & Hold1 & Hrun2 & Hnew2).
  assert (Hold : old0 = old) by (unfold old; now rewrite Hold0).
  subst old0. rewrite Hnew1 in Hold1. injection Hold1 as <-.
  exists disk2. split; [|split; [|split]].
  - unfold recordTurn. now rewrite Hrun1.
  - rewrite Hnew2, lastMessages_app by lia. now rewrite <- app_assoc.
  - assert (Hall : wholeTurns (old ++ [u; a])) by now apply wholeTurns_app.
    destruct (wholeTurns_even _ Hall) as [k Hk].
    unfold lastMessages. rewrite Hk.
    replace (2 * k - 20)%nat with (2 * (k - 10))%nat by lia.
    now apply wholeTurns_skipn.
  - rewrite lastMessages_length. lia.
Qed.
End ChatFacts.

Lemma appendChatHistory_keeps_last_20_witness :
  isInherited "4815162342" = false
  /\ getChatHistory
       (match appendChatHistory true "2026-02-01T00:00:00.000Z" None "4815162342" "user"
                "What is my balance?" with
        | Normal disk => disk
        | TypeError => None
        end) "4815162342"
     = Messages [Chat.mk "user" "What is my balance?" "2026-02-01T00:00:00.000Z"].
Proof.
  assert (H : isInherited "4815162342" = false) by reflexivity.
  split; [exact H|].
  destruct (appendChatHistory_keeps_last_20 "2026-02-01T00:00:00.000Z" None "4815162342"
              "user" "What is my balance?" H)
    as (old & disk' & Hold & Hrun & Hnew & _).
  rewrite Hrun, Hnew. injection Hold as <-. reflexivity.
Defined.

Lemma appendChatHistory_frame_witness :
  appendChatHistory true "2026-02-01T00:00:00.000Z" None "4815162342" "user" "Hi"
  = Normal (Some {| stored := loadConnections None;
                    chatHistory :=
                      Some {[ "4815162342" :=
                                [Chat.mk "user" "Hi" "2026-02-01T00:00:00.000Z"] ]} |})
  /\ getChatHistory
       (Some {| stored := loadConnections None;
                chatHistory :=
                  Some {[ "4815162342" :=
                            [Chat.mk "user" "Hi" "2026-02-01T00:00:00.000Z"] ]} |}) "16"
     = getChatHistory None "16".
Proof.
  assert (H : appendChatHistory true "2026-02-01T00:00:00.000Z" None "4815162342" "user" "Hi"
              = Normal (Some {| stored := loadConnections None;
                                chatHistory :=
                                  Some {[ "4815162342" :=
                                            [Chat.mk "user" "Hi"
                                               "2026-02-01T00:00:00.000Z"] ]} |}))
    by reflexivity.
  split; [exact H|].
  apply (proj2 (appendChatHistory_frame true "2026-02-01T00:00:00.000Z" None "4815162342"
                  "user" "Hi") _ H).
  discriminate.
Defined.

Lemma clearChatHistory_clears_witness :
  isInherited "4815162342" = false
  /\ getChatHistory
       (clearChatHistory true
          (Some {| stored := loadConnections None;
                   chatHistory :=
                     Some {[ "4815162342" :=
                               [Chat.mk "user" "Hi" "2026-02-01T00:00:00.000Z"] ]} |})
          "4815162342") "4815162342"
     = Messages [].
Proof.
  assert (H : isInherited "4815162342" = false) by reflexivity.
  split; [exact H|].
  exact (proj1 (clearChatHistory_clears _ "4815162342") H).
Defined.

Lemma recordTurn_whole_turns_witness :
  isInherited "4815162342" = false
  /\ wholeTurns (messagesOf (getChatHistory None "4815162342"))
  /\ exists disk',
       recordTurn true true "2026-02-01T00:00:00.000Z" "2026-02-01T00:00:05.000Z" None
         "4815162342" "What is my balance?" "" = Normal disk'
       /\ getChatHistory disk' "4815162342"
          = Messages [Chat.mk "user" "What is my balance?" "2026-02-01T00:00:00.000Z";
                      Chat.mk "assistant" "I processed your request."
                        "2026-02-01T00:00:05.000Z"].
Proof.
  assert (H1 : isInherited "4815162342" = false) by reflexivity.
  assert (H2 : wholeTurns (messagesOf (getChatHistory None "4815162342"))) by constructor.
  split; [exact H1|]. split; [exact H2|].
  destruct (recordTurn_whole_turns "2026-02-01T00:00:00.000Z" "2026-02-01T00:00:05.000Z"
              None "4815162342" "What is my balance?" "" H1 H2)
    as (disk' & Hrun & Hnew & _).
  exists disk'. split; [exact Hrun|exact Hnew].
Defined.

(** ** The provider's categories and amounts *)

Section PlaidFacts.
Context {collator : Collator}.

Lemma normalized_char_not_lower (c : ascii) :
  isLowerChar (if Ascii.eqb (upperChar c) " " then "_"%char else upperChar c) = false.
Proof. destruct c as [[] [] [] [] [] [] [] []]; reflexivity. Qed.

Lemma normalized_not_lower (s : string) : hasLower (underscored (toUpperCase s)) = false.
Proof.
  induction s as [|c s IH]; simpl; [reflexivity|].
  now rewrite normalized_char_not_lower, IH.
Qed.

Lemma inherited_hasLower (k : string) : isInherited k = true -> hasLower k = true.
Proof.
  unfold isInherited, objectPrototypeKeys. simpl. rewrite !orb_true_iff, !String.eqb_eq.
  intuition (subst; reflexivity || discriminate).
Qed.

Lemma normalized_not_inherited (s : string) :
  isInherited (underscored (toUpperCase s)) = false.
Proof.
  destruct (isInherited _) eqn:Hi; [|reflexivity].
  apply inherited_hasLower in Hi. now rewrite normalized_not_lower in Hi.
Qed.

Lemma categoryMap_values (k c : string) : categoryMap !! k = Some c -> In c CATEGORIES.
Proof.
  intros H. apply elem_of_list_to_map_2, list_elem_of_In in H. simpl in H.
  repeat (destruct H as [[= <- <-]|H]; [simpl; tauto|]). contradiction.
Qed.

Lemma CATEGORIES_not_inherited (c : string) : In c CATEGORIES -> isInherited c = false.
Proof.
  intros Hc. simpl in Hc.
  repeat (destruct Hc as [<-|Hc]; [reflexivity|]). contradiction.
Qed.

(** The two ways out of [mapCategory]. *)
Lemma mapCategory_cases (plaidCategory : option string) :
  mapCategory plaidCategory = Category "other"
  \/ exists s c, plaidCategory = Some s
       /\ categoryMap !! underscored (toUpperCase s) = Some c
       /\ mapCategory plaidCategory = Category c.
Proof.
  unfold mapCategory, ifTruthy.
  destruct plaidCategory as [s|]; [|now left].
  destruct (truthy s); [|now left].
  unfold getProp. rewrite normalized_not_inherited.
  destruct (categoryMap !! underscored (toUpperCase s)) as [c|] eqn:Hc; [|now left].
  right. now exists s, c.
Qed.

Lemma mapCategory_category (plaidCategory : option string) :
  exists c, mapCategory plaidCategory = Category c /\ In c CATEGORIES.
Proof.
  destruct (mapCategory_cases plaidCategory) as [H|(s & c & _ & Hc & H)].
  - exists "other". split; [exact H|simpl; tauto].
  - exists c. split; [exact H|]. exact (categoryMap_values _ _ Hc).
Qed.

(** X10. [mapCategory] is total onto the closed enumeration: whatever the
    provider sends (nothing, an empty string, any text in any case, with
    spaces or underscores), the result is a string and one of the twelve
    [CATEGORIES], none of which names a member of [Object.prototype]; a
    category the table does not know becomes [other]. *)
Theorem mapCategory_closed (plaidCategory : option string) :
  exists c, mapCategory plaidCategory = Category c
    /\ In c CATEGORIES
    /\ isInherited c = false
    /\ (forall s, plaidCategory = Some s ->
          categoryMap !! underscored (toUpperCase s) = None -> c = "other").
Proof.
  destruct (mapCategory_category plaidCategory) as (c & Hm & Hc).
  exists c. split; [exact Hm|]. split; [exact Hc|].
  split; [now apply CATEGORIES_not_inherited|].
  intros s -> Hnone.
  destruct (mapCategory_cases (Some s)) as [H|(s' & c' & [= <-] & Hc' & _)];
    congruence.
Qed.

Lemma fromPlaid_Some (txn : PlaidTxn.t) :
  exists c,
    In c CATEGORIES
    /\ fromPlaid txn
       = Some (Txn.mk (PlaidTxn.transaction_id txn) (PlaidTxn.date txn)
                 (- PlaidTxn.amount txn)
                 (ifTruthy (PlaidTxn.merchant_name txn) (fun m => m) (PlaidTxn.name txn))
                 c (PlaidTxn.account_id txn)).
Proof.
  unfold fromPlaid.
  destruct (mapCategory_category (orElse (PlaidTxn.primary txn) (PlaidTxn.legacy txn)))
    as (c & -> & Hc).
  now exists c.
Qed.

Lemma getTransactions_Some (response : list PlaidTxn.t) :
  exists txs, Plaid.getTransactions response = Some txs
    /\ length txs = length response
    /\ Forall (fun t => In (Txn.category t) CATEGORIES) txs.
Proof.
  unfold Plaid.getTransactions.
  induction response as [|txn response (txs & Hm & Hl & Hc)].
  - exists []. repeat split. constructor.
  - destruct (fromPlaid_Some txn) as (c & Hin & Ht).
    eexists (_ :: txs). cbn [mapM]. rewrite Ht. cbn. rewrite Hm. cbn.
    split; [reflexivity|]. split; [now rewrite Hl|].
    constructor; [exact Hin|exact Hc].
Qed.

(** The totals of the summary add up when no category names a member of
    [Object.prototype]. *)
Lemma spending_total (txs : list Txn.t) (startDate endDate : option string) :
  Forall (fun t => isInherited (Txn.category t) = false) txs ->
  (sumTotals (getSpendingSummary txs startDate endDate)
   == sumAbs (List.filter (eligibleSpend startDate endDate) txs))%Q.
Proof.
  intros Hown. unfold getSpendingSummary. rewrite spending_loop_input, sumTotals_loop.
  - rewrite sumTotals_empty, (sumAbs_Permutation _ _ (eligible_sorted_Permutation txs _)).
    ring.
  - apply List.Forall_forall. intros t Ht. apply filter_In in Ht.
    destruct Ht as [Ht _]. rewrite getTransactions_none, sort_In in Ht.
    exact (proj1 (List.Forall_forall _ _) Hown t Ht).
Qed.


(** X12. The sign convention of the provider is flipped and nothing else
    is changed: the amount is negated (same absolute value); a debit
    (positive at the provider) is spending unless its category is [income]
    or [transfer], and is income only in category [income]; a credit
    (negative at the provider) is income whatever its category and never
    spending; identifier, date and account are copied, and the merchant is
    [merchant_name] unless that is missing or empty, then [name]. *)
Theorem fromPlaid_signs (txn : PlaidTxn.t) (t : Txn.t) :
  fromPlaid txn = Some t ->
  (Txn.amount t = - PlaidTxn.amount txn
   /\ Qabs (Txn.amount t) == Qabs (PlaidTxn.amount txn)
   /\ (0 < PlaidTxn.amount txn ->
       isIncome t = String.eqb (Txn.category t) "income"
       /\ isSpend t = negb (String.eqb (Txn.category t) "income")
                      && negb (String.eqb (Txn.category t) "transfer"))
   /\ (PlaidTxn.amount txn < 0 -> isIncome t = true /\ isSpend t = false)
   /\ (PlaidTxn.amount txn == 0 -> isSpend t = false))%Q
  /\ Txn.id t = PlaidTxn.transaction_id txn
  /\ Txn.date t = PlaidTxn.date txn
  /\ Txn.account t = PlaidTxn.account_id txn
  /\ Txn.merchant t
     = match PlaidTxn.merchant_name txn with
       | Some m => if truthy m then m else PlaidTxn.name txn
       | None => PlaidTxn.name txn
       end.
Proof.
  destruct (fromPlaid_Some txn) as (c & _ & ->). intros [= <-].
  cbn [Txn.amount Txn.category Txn.id Txn.date Txn.account Txn.merchant].
  split; [|repeat split; reflexivity].
  split; [reflexivity|]. split; [apply Qabs_opp|].
  unfold isIncome, isSpend. cbn [Txn.amount Txn.category].
  split; [|split].
  - intros Hpos.
    assert (Hneg : Qltb (- PlaidTxn.amount txn) 0 = true) by (apply Qltb_lt; lra).
    assert (Hnot : Qltb 0 (- PlaidTxn.amount txn) = false).
    { apply not_true_iff_false. rewrite Qltb_lt. lra. }
    rewrite Hneg, Hnot, orb_false_r. split; reflexivity.
  - intros Hneg.
    assert (Hpos : Qltb 0 (- PlaidTxn.amount txn) = true) by (apply Qltb_lt; lra).
    assert (Hnot : Qltb (- PlaidTxn.amount txn) 0 = false).
    { apply not_true_iff_false. rewrite Qltb_lt. lra. }
    rewrite Hpos, Hnot, orb_true_r. split; reflexivity.
  - intros Hz.
    assert (Hnot : Qltb (- PlaidTxn.amount txn) 0 = false).
    { apply not_true_iff_false. rewrite Qltb_lt. lra. }
    now rewrite Hnot.
Qed.
End PlaidFacts.

Lemma mapCategory_closed_witness :
  mapCategory (Some "Crypto Exchange") = Category "other".
Proof.
  destruct (mapCategory_closed (Some "Crypto Exchange")) as (c & Hm & _ & _ & Hother).
  rewrite Hm. f_equal. apply (Hother "Crypto Exchange"); reflexivity.
Defined.

Lemma fromPlaid_signs_witness :
  let txn := PlaidTxn.mk "p1" "2026-01-15" 12.5 (Some "") "SQ *BLUE BOTTLE"
               None (Some "Food and Drink") "acc_1" in
  fromPlaid txn = Some (Txn.mk "p1" "2026-01-15" (-12.5) "SQ *BLUE BOTTLE" "food" "acc_1")
  /\ Txn.merchant (Txn.mk "p1" "2026-01-15" (-12.5) "SQ *BLUE BOTTLE" "food" "acc_1")
     = "SQ *BLUE BOTTLE".
Proof.
  intros txn.
  assert (H : fromPlaid txn
              = Some (Txn.mk "p1" "2026-01-15" (-12.5) "SQ *BLUE BOTTLE" "food" "acc_1"))
    by (vm_compute; reflexivity).
  split; [exact H|].
  exact (proj2 (proj2 (proj2 (proj2 (fromPlaid_signs txn _ H))))).
Defined.

(** ** Selecting twice, and ranges of dates *)

Section SelectionFacts.
Context {collator : Collator}.

Lemma filter_all {A : Type} (p : A -> bool) (l : list A) :
  (forall x, In x l -> p x = true) -> List.filter p l = l.
Proof.
  induction l as [|x l IH]; simpl; intros H; [reflexivity|].
  rewrite (H x) by now left. f_equal. apply IH. intros y Hy. apply H. now right.
Qed.

Lemma keep_all (tests : list (option (Txn.t -> bool))) (txs : list Txn.t) :
  (forall t, In t txs -> forallb (fun test => passes test t) tests = true) ->
  fold_left keep tests txs = txs.
Proof.
  revert txs. induction tests as [|test tests IH]; intros txs H; simpl; [reflexivity|].
  assert (Hk : keep txs test = txs).
  { destruct test as [p|]; simpl; [|reflexivity].
    apply filter_all. intros t Ht. specialize (H t Ht). simpl in H.
    now apply andb_true_iff in H. }
  rewrite Hk. apply IH. intros t Ht. specialize (H t Ht). simpl in H.
  now apply andb_true_iff in H.
Qed.

Lemma sort_sorted {A : Type} (cmp : A -> A -> comparison) (l : list A) :
  StronglySorted (inOrder cmp) l -> sort cmp l = l.
Proof.
  induction 1 as [|x l Hl IH Hx]; [reflexivity|].
  change (sort cmp (x :: l)) with (insertSorted cmp x (sort cmp l)). rewrite IH.
  destruct l as [|y l]; [reflexivity|]. simpl.
  inversion Hx as [|? ? Hxy _]; subst. unfold inOrder in Hxy.
  now destruct (cmp x y).
Qed.

Lemma StronglySorted_firstn {A : Type} (R : A -> A -> Prop) (l : list A) (n : nat) :
  StronglySorted R l -> StronglySorted R (firstn n l).
Proof.
  intros Hs. revert n. induction Hs as [|x l Hl IH Hx]; intros [|n]; simpl;
    try constructor.
  - apply IH.
  - now apply Forall_take.
Qed.

Lemma slice0_firstn {A : Type} (l : list A) (e : Z) :
  exists n, slice0 l e = firstn n l.
Proof. unfold slice0. destruct (e <? 0)%Z; eexists; reflexivity. Qed.

(** What [getTransactions] returns is a prefix of the selected
    transactions in descending order of date. *)
Lemma getTransactions_prefix (txs : list Txn.t) (filters : Filters.t) :
  exists n, getTransactions txs filters
            = firstn n (sort byDateDesc (applyFilters txs filters)).
Proof.
  unfold getTransactions.
  destruct (Filters.limit filters) as [limit|].
  - destruct (isTruthyNumber limit); [apply slice0_firstn|].
    eexists. symmetry. apply firstn_all.
  - eexists. symmetry. apply firstn_all.
Qed.

Lemma In_firstn {A : Type} (l : list A) (n : nat) (x : A) : In x (firstn n l) -> In x l.
Proof.
  intros H. rewrite <- (firstn_skipn n l). apply in_or_app. now left.
Qed.

(** X17. Selecting again selects the same: with no [limit] or a [limit]
    that is not negative, [getTransactions] applied with the same filters
    to its own result returns that result. *)
Theorem getTransactions_idempotent (txs : list Txn.t) (filters : Filters.t) :
  match Filters.limit filters with
  | Some limit => (0 <= limit)%Z
  | None => True
  end ->
  getTransactions (getTransactions txs filters) filters = getTransactions txs filters.
Proof.
  intros Hlimit.
  destruct (getTransactions_prefix txs filters) as [n Hn].
  set (found := getTransactions txs filters) in *.
  assert (Hsel : applyFilters found filters = found).
  { apply keep_all. intros t Ht. rewrite Hn in Ht. apply In_firstn in Ht.
    rewrite sort_In in Ht. now apply applyFilters_In in Ht. }
  assert (Hsorted : sort byDateDesc found = found).
  { apply sort_sorted. rewrite Hn. apply StronglySorted_firstn.
    apply (sort_ordered byDateDesc byDateDesc_flip byDateDesc_trans). }
  unfold getTransactions at 1. rewrite Hsel, Hsorted.
  destruct (Filters.limit filters) as [limit|] eqn:Hl; [|reflexivity].
  destruct (isTruthyNumber limit) eqn:Ht; [|reflexivity].
  unfold found, getTransactions. rewrite Hl, Ht.
  unfold slice0. destruct (Z.ltb_spec limit 0) as [Hneg|_]; [lia|].
  rewrite firstn_firstn. f_equal. lia.
Qed.

Lemma leb_refl (s : string) : String.leb s s = true.
Proof. now destruct (String.leb_total s s). Qed.

Lemma leb_trans (a b c : string) :
  String.leb a b = true -> String.leb b c = true -> String.leb a c = true.
Proof.
  unfold String.leb. intros Hab Hbc.
  pose proof (@localeCompare_trans codeUnits a b c) as Ht. simpl in Ht.
  destruct (String.compare a b); try discriminate;
    destruct (String.compare b c); try discriminate;
    destruct (String.compare a c); try reflexivity; exfalso; apply Ht; congruence.
Qed.

Lemma selected_dates (filters : Filters.t) (s e : string) (t : Txn.t) :
  Filters.startDate filters = Some s -> truthy s = true ->
  Filters.endDate filters = Some e -> truthy e = true ->
  forallb (fun test => passes test t) (criteria filters) = true ->
  String.leb s (Txn.date t) = true /\ String.leb (Txn.date t) e = true.
Proof.
  intros Hs Hst He Het. unfold criteria, byStartDate, byEndDate, ifTruthy.
  rewrite Hs, He, Hst, Het. cbn [forallb passes]. rewrite !andb_true_iff. tauto.
Qed.

End SelectionFacts.

(** A negative [limit] cuts the tail again at every call. *)
Lemma getTransactions_negative_limit_not_idempotent :
  let filters := Filters.withLimit Filters.none (Some (-1)%Z) in
  getTransactions (getTransactions MOCK_TRANSACTIONS filters) filters
  <> getTransactions MOCK_TRANSACTIONS filters.
Proof. vm_compute. discriminate. Qed.

Lemma getTransactions_idempotent_witness :
  let filters := Filters.mk (Some "Food") None None None None (Some 0%Q) None (Some 2%Z) in
  getTransactions (getTransactions MOCK_TRANSACTIONS filters) filters
  = getTransactions MOCK_TRANSACTIONS filters.
Proof.
  intros filters. apply (getTransactions_idempotent MOCK_TRANSACTIONS filters).
  simpl. lia.
Defined.


(** ** Reports and the summary side by side *)

Section ReportFacts.
Context {collator : Collator}.
Local Open Scope Q_scope.

Lemma StronglySorted_filter {A : Type} (R : A -> A -> Prop) (p : A -> bool) (l : list A) :
  StronglySorted R l -> StronglySorted R (List.filter p l).
Proof.
  induction 1 as [|x l Hl IH Hx]; simpl; [constructor|].
  destruct (p x); [|exact IH]. constructor; [exact IH|].
  apply List.Forall_forall. intros y Hy. apply filter_In in Hy.
  exact (proj1 (List.Forall_forall _ _) Hx y (proj1 Hy)).
Qed.

(** The transactions [getIncomeSummary] reports. *)
Lemma income_transactions (txs : list Txn.t) (startDate endDate : option string) :
  Report.transactions (getIncomeSummary txs startDate endDate)
  = List.filter (eligibleIncome startDate endDate) (getTransactions txs Filters.none).
Proof.
  unfold getIncomeSummary, incomeSummaryOf. cbn [Report.transactions].
  rewrite withinDates_filter, filter_filter. reflexivity.
Qed.

Lemma income_total (txs : list Txn.t) (startDate endDate : option string) :
  Report.total (getIncomeSummary txs startDate endDate)
  == sumAbs (List.filter (eligibleIncome startDate endDate) txs).
Proof.
  change (Report.total (getIncomeSummary txs startDate endDate))
    with (sumAbs (Report.transactions (getIncomeSummary txs startDate endDate))).
  rewrite income_transactions.
  apply sumAbs_Permutation, eligible_sorted_Permutation.
Qed.

Lemma sumAbs_nonneg (l : list Txn.t) : 0 <= sumAbs l.
Proof.
  induction l as [|t l IH]; [unfold sumAbs; simpl; lra|].
  rewrite sumAbs_cons. pose proof (Qabs_nonneg (Txn.amount t)). lra.
Qed.


Lemma categorySpend_eligible (category : string) (t : Txn.t) :
  toLowerCase category <> "income" -> toLowerCase category <> "transfer" ->
  eligibleSpend None None t && inCategory (toLowerCase category) t
  = isCategorySpend category t.
Proof.
  intros Hi Ht. unfold eligibleSpend, isSpend, inCategory, isCategorySpend, withinBounds.
  cbn [ifTruthy]. rewrite andb_true_r.
  destruct (String.eqb_spec (Txn.category t) (toLowerCase category)) as [->|_].
  - apply String.eqb_neq in Hi. apply String.eqb_neq in Ht. rewrite Hi, Ht. cbn [negb].
    now rewrite !andb_true_r.
  - now rewrite andb_false_r.
Qed.

(** X15. The drill-down agrees with the summary: for a category other
    than [income] and [transfer] that names no member of
    [Object.prototype], written in any case, [getCategorySpending] has the
    total and the count of that category's bucket in the unbounded
    [getSpendingSummary]; when the summary has no such bucket the report
    is empty with total 0. *)
Theorem getCategorySpending_matches_summary (txs : list Txn.t) (category : string) :
  toLowerCase category <> "income" -> toLowerCase category <> "transfer" ->
  isInherited (toLowerCase category) = false ->
  let report := getCategorySpending txs category in
  match getSpendingSummary txs None None !! toLowerCase category with
  | Some bucket =>
      Report.total report = Bucket.total bucket
      /\ Report.count report = Bucket.count bucket
      /\ (1 <= Report.count report)%nat
  | None => report = Report.mk 0 0%nat []
  end.
Proof.
  intros Hi Ht Hown report.
  rewrite getSpendingSummary_lookup, Hown.
  set (mine := List.filter (isCategorySpend category) (getTransactions txs Filters.none)).
  assert (Hreport : report = Report.mk (sumAbs mine) (length mine) mine) by reflexivity.
  assert (Hsame : List.filter
                    (fun t => eligibleSpend None None t && inCategory (toLowerCase category) t)
                    (getTransactions txs Filters.none)
                  = mine).
  { apply filter_ext. intros t. now apply categorySpend_eligible. }
  rewrite Hsame, Hreport. clear Hsame Hreport.
  destruct mine as [|t l]; [reflexivity|].
  cbn [Report.total Report.count Bucket.total Bucket.count].
  split; [reflexivity|]. split; [reflexivity|]. simpl. lia.
Qed.

(** *** Every amount is accounted for once *)

Lemma sumAbs_filter_cons (p : Txn.t -> bool) (t : Txn.t) (l : list Txn.t) :
  sumAbs (List.filter p (t :: l))
  == (if p t then Qabs (Txn.amount t) else 0) + sumAbs (List.filter p l).
Proof.
  simpl. destruct (p t); [rewrite sumAbs_cons|]; ring.
Qed.

Lemma Qltb_false (x y : Q) : Qltb x y = false <-> y <= x.
Proof.
  rewrite <- not_true_iff_false, Qltb_lt. split; [apply Qnot_lt_le|apply Qle_not_lt].
Qed.

Lemma one_kind (startDate endDate : option string) (t : Txn.t) :
  (if eligibleSpend startDate endDate t then Qabs (Txn.amount t) else 0)
  + (if eligibleIncome startDate endDate t then Qabs (Txn.amount t) else 0)
  + (if outgoingTransfer startDate endDate t then Qabs (Txn.amount t) else 0)
  == (if withinBounds startDate endDate (Txn.date t) then Qabs (Txn.amount t) else 0).
Proof.
  unfold eligibleSpend, eligibleIncome, outgoingTransfer, isSpend, isIncome.
  destruct (withinBounds startDate endDate (Txn.date t));
    rewrite ?andb_false_r, ?andb_true_r; [|ring].
  destruct (Qltb (Txn.amount t) 0) eqn:Hneg, (Qltb 0 (Txn.amount t)) eqn:Hpos,
    (String.eqb (Txn.category t) "income") eqn:Hinc,
    (String.eqb (Txn.category t) "transfer") eqn:Htr;
    cbn [negb andb orb]; try ring;
    try (apply String.eqb_eq in Hinc; apply String.eqb_eq in Htr; congruence);
    try (apply Qltb_lt in Hneg; apply Qltb_lt in Hpos; lra).
  all: apply Qltb_false in Hneg; apply Qltb_false in Hpos.
  all: assert (Hz : Qabs (Txn.amount t) == 0) by (apply Qabs_case; intros; lra).
  all: rewrite Hz; ring.
Qed.

Lemma kinds_add_up (startDate endDate : option string) (txs : list Txn.t) :
  sumAbs (List.filter (eligibleSpend startDate endDate) txs)
  + sumAbs (List.filter (eligibleIncome startDate endDate) txs)
  + sumAbs (List.filter (outgoingTransfer startDate endDate) txs)
  == sumAbs (List.filter (fun t => withinBounds startDate endDate (Txn.date t)) txs).
Proof.
  induction txs as [|t txs IH]; [unfold sumAbs; simpl; ring|].
  rewrite !sumAbs_filter_cons, <- IH, <- (one_kind startDate endDate t). ring.
Qed.


(** X20. [netWorth] is the checking sum plus the credit sum, and
    [creditOwed] is the absolute value of the credit sum: [netWorth] is
    [checking - creditOwed] when the credit balances sum to at most 0 (owed
    amounts stored as negative balances, as in the canned accounts), and
    [checking + creditOwed] when they sum to more than 0. *)
Theorem getTotalBalance_netWorth (accounts : list Acct.t) :
  let balance := getTotalBalance accounts in
  Balance.netWorth balance == checkingSum accounts + creditSum accounts
  /\ 0 <= Balance.creditOwed balance
  /\ (creditSum accounts <= 0 ->
      Balance.netWorth balance == Balance.checking balance - Balance.creditOwed balance)
  /\ (0 < creditSum accounts ->
      Balance.netWorth balance == Balance.checking balance + Balance.creditOwed balance).
Proof.
  intros balance. unfold balance, getTotalBalance.
  cbn [Balance.netWorth Balance.checking Balance.creditOwed].
  fold (checkingSum accounts). fold (creditSum accounts).
  split; [reflexivity|]. split; [apply Qabs_nonneg|]. split.
  - intros H. rewrite (Qabs_neg _ H). ring.
  - intros H. rewrite Qabs_pos by lra. ring.
Qed.
End ReportFacts.

(** ** The limits the tools pass *)

Section ToolFacts.
Context {collator : Collator}.

Lemma limitOr10_truthy (limit : Z) : isTruthyNumber (limitOr10 limit) = true.
Proof.
  unfold limitOr10. destruct (isTruthyNumber limit) eqn:H; [exact H|reflexivity].
Qed.

(** What a caller gets who passes [limit || 10]. *)
Lemma getTransactions_limitOr10 (txs : list Txn.t) (filters : Filters.t) (limit : Z) :
  let matching := getTransactions txs (Filters.withLimit filters None) in
  getTransactions txs (Filters.withLimit filters (Some (limitOr10 limit)))
  = if (limit =? 0)%Z then firstn 10 matching
    else if (0 <? limit)%Z then firstn (Z.to_nat limit) matching
    else firstn (length matching - Z.to_nat (- limit)) matching.
Proof.
  intros matching.
  assert (H : getTransactions txs (Filters.withLimit filters (Some (limitOr10 limit)))
              = slice0 matching (limitOr10 limit)).
  { unfold getTransactions. cbn [Filters.limit Filters.withLimit].
    rewrite limitOr10_truthy. reflexivity. }
  rewrite H. clear H.
  unfold limitOr10, isTruthyNumber, slice0.
  destruct (Z.eqb_spec limit 0) as [->|Hz]; [reflexivity|]. cbn [negb].
  destruct (Z.ltb_spec limit 0) as [Hneg|Hpos].
  - destruct (Z.ltb_spec 0 limit); [lia|]. f_equal. lia.
  - destruct (Z.ltb_spec 0 limit); [reflexivity|lia].
Qed.

(** X19. The tools never ask for everything: [search_transactions] and
    [get_recent_transactions] pass [limit || 10], so a [limit] of 0 gives
    the 10 newest matching transactions (not all of them, as
    [getTransactions] itself would), a positive [limit] that many of the
    newest, and a negative [limit] all but the oldest [-limit]. *)
Theorem tools_limit (txs : list Txn.t) :
  (forall args : SearchArgs.t,
     let limit := SearchArgs.limit args in
     let matching := getTransactions txs (Filters.withLimit (searchFilters args) None) in
     getTransactions txs (searchFilters args)
     = if (limit =? 0)%Z then firstn 10 matching
       else if (0 <? limit)%Z then firstn (Z.to_nat limit) matching
       else firstn (length matching - Z.to_nat (- limit)) matching)
  /\ (forall limit : Z,
        let newestFirst := getTransactions txs Filters.none in
        getTransactions txs (recentFilters limit)
        = if (limit =? 0)%Z then firstn 10 newestFirst
          else if (0 <? limit)%Z then firstn (Z.to_nat limit) newestFirst
          else firstn (length newestFirst - Z.to_nat (- limit)) newestFirst).
Proof.
  split.
  - intros args. apply (getTransactions_limitOr10 txs (searchFilters args)).
  - intros limit. apply (getTransactions_limitOr10 txs Filters.none).
Qed.
End ToolFacts.

(** ** Connecting and caching together *)

Section Compose.
Context {collator : Collator}.

(** X13. Connecting and caching do not interfere: saving the connection
    and then caching the transactions, as [/api/exchange] does, leaves the
    same file as caching and then saving, as [/sync] and the
    [sync_transactions] tool do; afterwards (for a user identifier other
    than [__proto__]) the connection and the cached transactions are both
    found. *)
Theorem connect_and_cache (now : string) (disk : option File) (userId : string)
    (connection : Connection) (txs : list Txn.t) :
  let exchanged :=
    cacheTransactions true now (saveUserConnection true disk userId connection) userId txs in
  let synced :=
    saveUserConnection true (cacheTransactions true now disk userId txs) userId connection in
  exchanged = synced
  /\ (userId <> "__proto__" ->
      getUserConnection (storedData exchanged) userId = Own connection
      /\ hasPlaidConnection exchanged userId = true
      /\ getCachedTransactions (storedData exchanged) userId
         = Own {| transactions := txs; cachedAt := now |}).
Proof.
  intros exchanged synced. split; [reflexivity|].
  intros Hp.
  assert (Hc : getUserConnection (storedData exchanged) userId = Own connection).
  { unfold exchanged, cacheTransactions, saveUserConnection, getUserConnection. simpl.
    now apply getProp_setProp_eq. }
  split; [exact Hc|]. split.
  - unfold hasPlaidConnection. now rewrite Hc.
  - unfold exchanged, cacheTransactions, getCachedTransactions. simpl.
    now apply getProp_setProp_eq.
Qed.
End Compose.

Lemma connect_and_cache_witness :
  let connection := {| accessToken := "access-sandbox-1"; itemId := "item-1";
                       accounts := None; connectedAt := "2026-02-01T00:00:00.000Z" |} in
  hasPlaidConnection
    (cacheTransactions true "2026-02-01T00:00:01.000Z"
       (saveUserConnection true None "4815162342" connection) "4815162342" [])
    "4815162342" = true.
Proof.
  intros connection.
  assert (H : "4815162342" <> "__proto__") by discriminate.
  exact (proj1 (proj2 (proj2 (connect_and_cache "2026-02-01T00:00:01.000Z" None "4815162342"
                                connection []) H))).
Defined.

Lemma getCategorySpending_matches_summary_witness :
  let report := getCategorySpending MOCK_TRANSACTIONS "Groceries" in
  match getSpendingSummary MOCK_TRANSACTIONS None None !! toLowerCase "Groceries" with
  | Some bucket =>
      Report.total report = Bucket.total bucket
      /\ Report.count report = Bucket.count bucket
      /\ (1 <= Report.count report)%nat
  | None => report = Report.mk 0 0%nat []
  end.
Proof.
  apply (getCategorySpending_matches_summary MOCK_TRANSACTIONS "Groceries");
    [discriminate|discriminate|reflexivity].
Defined.


Lemma getTotalBalance_netWorth_witness :
  (Balance.netWorth (getTotalBalance MOCK_ACCOUNTS)
   == Balance.checking (getTotalBalance MOCK_ACCOUNTS)
      - Balance.creditOwed (getTotalBalance MOCK_ACCOUNTS))%Q.
Proof.
  apply (proj1 (proj2 (proj2 (getTotalBalance_netWorth MOCK_ACCOUNTS)))).
  vm_compute. discriminate.
Defined.
